(** * Customer 360 ETL: validation, deduplication, aggregation and merge

    A shallow embedding of [etl_customer360.py].  The pipeline reads three
    sources (CRM leads, web activity, transactions), cleans each one and
    left-joins the activity and transaction summaries onto the lead table.

    Conventions of the embedding:
    - a Python [str] is a Rocq [string]; a character is a code point in
      U+0000..U+00FF (Latin-1), which is where [str.strip] and [str.lower]
      are modelled exactly;
    - a table cell is an [option string]: [None] is pandas' missing value
      (NaN / pd.NA / NaT);
    - a timestamp is a [Z], the number of nanoseconds since the epoch (UTC);
    - the parsers of pandas ([pd.to_numeric], [pd.to_datetime]) and its
      float64 arithmetic belong to the library, not to this program: they
      are the fields of the class [Pandas];
    - an exception that leaves a reader is a value of [result]. *)

From Stdlib Require Import List String Ascii ZArith NArith Bool Arith Lia.
From Stdlib Require Import Permutation Sorted.
Import ListNotations.

Set Implicit Arguments.

Local Open Scope string_scope.
Local Open Scope list_scope.

(** ** Python strings *)

Module PyStr.

(** [str.isspace] on one character: the white space that [str.strip()]
    removes (TAB, LF, VT, FF, CR, FS, GS, RS, US, SPACE, NEL, NBSP). *)
Definition is_space (c : ascii) : bool :=
  let n := N_of_ascii c in
  (((9 <=? n) && (n <=? 13)) || ((28 <=? n) && (n <=? 32))
   || (n =? 133) || (n =? 160))%N.

(** [str.lower] on one character: A-Z and the Latin-1 capitals
    (U+00C0..U+00DE without the multiplication sign U+00D7) move up by 32. *)
Definition lower_char (c : ascii) : ascii :=
  let n := N_of_ascii c in
  if (((65 <=? n) && (n <=? 90)) || ((192 <=? n) && (n <=? 214))
      || ((216 <=? n) && (n <=? 222)))%N
  then ascii_of_N (n + 32) else c.

Fixpoint lower (s : string) : string :=
  match s with
  | EmptyString => EmptyString
  | String c s' => String (lower_char c) (lower s')
  end.

Fixpoint lstrip (s : string) : string :=
  match s with
  | EmptyString => EmptyString
  | String c s' => if is_space c then lstrip s' else s
  end.

Fixpoint rstrip (s : string) : string :=
  match s with
  | EmptyString => EmptyString
  | String c s' =>
      match rstrip s' with
      | EmptyString => if is_space c then EmptyString else String c EmptyString
      | t => String c t
      end
  end.

(** [s.strip()] *)
Definition strip (s : string) : string := rstrip (lstrip s).

Fixpoint last_char (s : string) : option ascii :=
  match s with
  | EmptyString => None
  | String c EmptyString => Some c
  | String _ s' => last_char s'
  end.

End PyStr.

(** ** The fragment of [re] that [UUID_RE] is written in *)

Module Re.

Inductive atom : Type :=
| Bol                                          (* ^ *)
| Eol                                          (* $ *)
| Chr (c : ascii)                              (* a literal character *)
| Rep (cls : list (ascii * ascii)) (n : nat).  (* [a-b...]{n} *)

Definition in_class (cls : list (ascii * ascii)) (c : ascii) : bool :=
  existsb (fun r => (N_of_ascii (fst r) <=? N_of_ascii c)%N
                    && (N_of_ascii c <=? N_of_ascii (snd r))%N) cls.

Fixpoint take_class (cls : list (ascii * ascii)) (n : nat) (s : string)
  : option string :=
  match n with
  | O => Some s
  | S n' =>
      match s with
      | EmptyString => None
      | String c s' => if in_class cls c then take_class cls n' s' else None
      end
  end.

(** Without [re.MULTILINE], [$] matches at the end of the string and just
    before a newline that is the last character. *)
Definition at_end (s : string) : bool :=
  match s with
  | EmptyString => true
  | String c EmptyString => (N_of_ascii c =? 10)%N
  | _ => false
  end.

(** [match_atoms p start s]: the pattern [p] matches a prefix of [s];
    [start] tells whether [s] is still the whole subject string. *)
Fixpoint match_atoms (p : list atom) (start : bool) (s : string) : bool :=
  match p with
  | [] => true
  | Bol :: p' => start && match_atoms p' start s
  | Eol :: p' => at_end s && match_atoms p' start s
  | Chr c :: p' =>
      match s with
      | EmptyString => false
      | String d s' => Ascii.eqb c d && match_atoms p' false s'
      end
  | Rep cls n :: p' =>
      match take_class cls n s with
      | None => false
      | Some s' => match_atoms p' (start && Nat.eqb n 0) s'
      end
  end.

(** [bool(pattern.match(s))] *)
Definition re_match (p : list atom) (s : string) : bool := match_atoms p true s.

End Re.

(** ** Utility helpers *)

(** [[0-9a-fA-F]] *)
Definition HEX : list (ascii * ascii) :=
  [("0", "9"); ("a", "f"); ("A", "F")]%char.

(** [UUID_RE]:
    [^[0-9a-fA-F]{8}-[0-9a-fA-F]{4}-[0-9a-fA-F]{4}-[0-9a-fA-F]{4}-[0-9a-fA-F]{12}$] *)
Definition UUID_RE : list Re.atom :=
  [Re.Bol; Re.Rep HEX 8; Re.Chr "-"; Re.Rep HEX 4; Re.Chr "-"; Re.Rep HEX 4;
   Re.Chr "-"; Re.Rep HEX 4; Re.Chr "-"; Re.Rep HEX 12; Re.Eol]%char.

(** [is_valid_uuid(u)]: a missing value is not valid; anything else is
    valid when [UUID_RE] matches its stripped text. *)
Definition is_valid_uuid (u : option string) : bool :=
  match u with
  | None => false
  | Some s => Re.re_match UUID_RE (PyStr.strip s)
  end.

(** [clean_email(x)] *)
Definition clean_email (x : option string) : option string :=
  match x with
  | Some s => Some (PyStr.lower (PyStr.strip s))
  | None => None
  end.

(** [series.where(series.apply(is_valid_uuid), pd.NA)] on one cell, as
    [read_crm] does on the [user_uuid] column. *)
Definition validate_identity (u : option string) : option string :=
  if is_valid_uuid u then u else None.

(** *** The UUID shape in words

    The 8-4-4-4-12 shape: five groups of hexadecimal digits of lengths
    8, 4, 4, 4 and 12, separated by hyphens. *)

Definition hex_digit (c : ascii) : Prop :=
  In c (list_ascii_of_string "0123456789abcdefABCDEF").

Definition hex_group (n : nat) (s : string) : Prop :=
  String.length s = n /\ Forall hex_digit (list_ascii_of_string s).

Definition uuid_shape (s : string) : Prop :=
  exists a b c d e : string,
    s = (a ++ "-" ++ b ++ "-" ++ c ++ "-" ++ d ++ "-" ++ e)%string
    /\ hex_group 8 a /\ hex_group 4 b /\ hex_group 4 c /\ hex_group 4 d
    /\ hex_group 12 e.

(** ** Tables *)

(** Exceptions that leave a reader. *)
Inductive exn : Type := AttributeError | TypeError | KeyError.

Inductive result (A : Type) : Type :=
| Ok (a : A)
| Raise (e : exn).

Arguments Ok {A} a.
Arguments Raise {A} e.

(** A row of a [dtype=str] frame: its non-missing cells by column name. *)
Definition row : Type := list (string * string).

(** A frame as [pd.read_csv] returns it, its column names already
    lower-cased and stripped. *)
Record DataFrame : Type := { columns : list string; rows : list row }.

Fixpoint cell (r : row) (c : string) : option string :=
  match r with
  | [] => None
  | (k, v) :: r' => if String.eqb k c then Some v else cell r' c
  end.

(** [c in df.columns] *)
Definition has_column (df : DataFrame) (c : string) : bool :=
  existsb (String.eqb c) (columns df).

(** [df.get(c, pd.NA)] read at one row. *)
Definition get (df : DataFrame) (c : string) (r : row) : option string :=
  if has_column df c then cell r c else None.

(** [next((c for c in priority if c in df.columns), None)] *)
Definition first_present (priority : list string) (df : DataFrame)
  : option string :=
  find (has_column df) priority.

(** Equality of join and deduplication keys: pandas puts all missing keys
    in one class. *)
Definition key_eqb (a b : option string) : bool :=
  match a, b with
  | Some x, Some y => String.eqb x y
  | None, None => true
  | _, _ => false
  end.

(** [df[mask]]: the rows at which the boolean mask is set. *)
Fixpoint select (A : Type) (mask : list bool) (l : list A) : list A :=
  match mask, l with
  | m :: mask', x :: l' => if m then x :: select mask' l' else select mask' l'
  | _, _ => []
  end.

Section Sorting.

Variable A : Type.
Variable before : A -> A -> bool.

(** Put [x] in front of the first element it is before. *)
Fixpoint insert_sorted (x : A) (l : list A) : list A :=
  match l with
  | [] => [x]
  | y :: l' => if before x y then x :: l else y :: insert_sorted x l'
  end.

(** A stable sort: an element stays in front of the later ones it ties with. *)
Definition stable_sort (l : list A) : list A := fold_right insert_sorted [] l.

End Sorting.

Section DropDuplicates.

Variable A : Type.
Variable key : A -> option string.

(** Keep a row when its key is not among the keys [seen] so far. *)
Fixpoint drop_seen (seen : list (option string)) (l : list A) : list A :=
  match l with
  | [] => []
  | x :: l' =>
      if existsb (key_eqb (key x)) seen then drop_seen seen l'
      else x :: drop_seen (key x :: seen) l'
  end.

(** [df.drop_duplicates(subset=[key], keep="first")] *)
Definition drop_duplicates (l : list A) : list A := drop_seen [] l.

End DropDuplicates.

Section GroupBy.

Variable A : Type.
Variable key : A -> option string.

(** The distinct keys of a list. *)
Fixpoint nodup_keys (l : list string) : list string :=
  match l with
  | [] => []
  | k :: l' => if existsb (String.eqb k) l' then nodup_keys l' else k :: nodup_keys l'
  end.

(** The group keys: the distinct non-missing keys, in ascending order. *)
Definition group_keys (l : list A) : list string :=
  stable_sort String.leb
    (nodup_keys (flat_map (fun x => match key x with Some k => [k] | None => [] end) l)).

(** [df.groupby(key)]: one group per key, keys ascending, the rows of a
    group in their order in [df]; rows with a missing key are in no group. *)
Definition groupby (l : list A) : list (string * list A) :=
  map (fun k => (k, filter (fun x => key_eqb (key x) (Some k)) l)) (group_keys l).

End GroupBy.

Section Merge.

Variables L R : Type.
Variable lkey : L -> option string.
Variable rkey : R -> option string.

(** [left.merge(right, on=key, how="left")]: every left row, in order,
    once per matching right row, or once with nothing when none matches. *)
Definition merge_left (left : list L) (right : list R) : list (L * option R) :=
  flat_map
    (fun l =>
       match filter (fun r => key_eqb (lkey l) (rkey r)) right with
       | [] => [(l, None)]
       | ms => map (fun r => (l, Some r)) ms
       end)
    left.

End Merge.

(** int64 wrap-around. *)
Definition wrap64 (z : Z) : Z := ((z + 2 ^ 63) mod 2 ^ 64 - 2 ^ 63)%Z.

(** The sum of an integer column, before wrap-around. *)
Definition Zsum (l : list Z) : Z := fold_left Z.add l 0%Z.

(** [max] of a datetime column: missing values are skipped; all missing
    gives missing. *)
Definition ts_max2 (a b : option Z) : option Z :=
  match a, b with
  | Some x, Some y => Some (Z.max x y)
  | Some x, None => Some x
  | None, _ => b
  end.

Definition ts_max (l : list (option Z)) : option Z := fold_left ts_max2 l None.

(** ** The pandas library

    The conversions are taken cell by cell: what a cell converts to does
    not depend on the other cells of its column. *)

Class Pandas : Type := {
  (** the float64 values other than NaN *)
  float64 : Type;
  (** [pd.to_numeric(s, errors="coerce")] on a string; [None] is NaN *)
  to_numeric : string -> option float64;
  (** [x > 0] *)
  float_gt0 : float64 -> bool;
  (** [0.0] *)
  float_zero : float64;
  (** the [sum] reduction of a column of a group, NaN skipped *)
  float_sum : list float64 -> float64;
  (** [astype("Int64")] on one value; [None] when the value is not
      integral, where the cast raises [TypeError] *)
  float_to_int64 : float64 -> option Z;
  (** [pd.to_datetime(s, utc=True, errors="coerce")] on a string;
      [None] is NaT *)
  to_datetime : string -> option Z;
  (** the same on an integer *)
  epoch_to_datetime : Z -> option Z
}.

Definition bind (A B : Type) (m : result A) (k : A -> result B) : result B :=
  match m with
  | Ok a => k a
  | Raise e => Raise e
  end.

Notation "x <- m ;; k" := (bind m (fun x => k))
  (at level 61, m at next level, right associativity).

(** Apply a fallible conversion to every row; the first failure wins. *)
Fixpoint map_opt (A B : Type) (f : A -> option B) (l : list A) : option (list B) :=
  match l with
  | [] => Some []
  | x :: l' =>
      match f x with
      | None => None
      | Some y => option_map (cons y) (map_opt f l')
      end
  end.

Definition is_some (A : Type) (o : option A) : bool :=
  match o with Some _ => true | None => false end.

Section Pipeline.

Context {P : Pandas}.

(** [to_iso_timestamp(s)] on a cell of a [dtype=str] frame. *)
Definition to_iso_timestamp (s : option string) : option Z :=
  match s with
  | Some v => to_datetime v
  | None => None
  end.

(** [coerce_numeric] on a cell of a [dtype=str] frame. *)
Definition coerce_numeric (s : option string) : option float64 :=
  match s with
  | Some v => to_numeric v
  | None => None
  end.

(** *** CRM: customer lead data *)

(** A row of the lead table.  [lead_index] is [_row_order], which is also
    the index label that the row keeps through the sort and deduplication.
    The name columns ride along unchanged and are left out. *)
Record Lead : Type := {
  lead_index : nat;
  lead_uuid : option string;
  lead_email : option string;
  lead_ts : option Z
}.

(** The order of
    [sort_values(by=["_lead_ts", "_row_order"], ascending=[False, True])]:
    later timestamps first, NaT after every timestamp, ties by row order. *)
Definition lead_before (a b : Lead) : bool :=
  match lead_ts a, lead_ts b with
  | Some x, Some y =>
      (y <? x)%Z || ((x =? y)%Z && Nat.leb (lead_index a) (lead_index b))
  | Some _, None => true
  | None, Some _ => false
  | None, None => Nat.leb (lead_index a) (lead_index b)
  end.

Definition CRM_TS_COLUMNS : list string :=
  ["created_at"; "created"; "signup_date"; "updated_at"; "timestamp"].

(** The lead frame before deduplication, one [Lead] per source row. *)
Definition crm_leads (df : DataFrame) : list Lead :=
  let ts_col := first_present CRM_TS_COLUMNS df in
  map (fun ir =>
         {| lead_index := fst ir;
            lead_uuid := validate_identity (get df "user_uuid" (snd ir));
            lead_email := clean_email (get df "email" (snd ir));
            lead_ts := match ts_col with
                       | Some c => to_iso_timestamp (cell (snd ir) c)
                       | None => None
                       end |})
      (combine (seq 0 (List.length (rows df))) (rows df)).

(** [read_crm], on the lead files that it reads without raising: the
    handling of the name columns (which raises on a file that has a [name]
    column and no row) is left out with them. *)
Definition read_crm (df : DataFrame) : list Lead :=
  drop_duplicates lead_email (stable_sort lead_before (crm_leads df)).

(** *** Web activity data *)

(** An integer that float64 holds exactly. *)
Definition safe_int (z : Z) : bool := (Z.abs z <? 2 ^ 53)%Z.

(** The JSON values of the activity log: null, strings and integers.  The
    integers are those below 2^53 in absolute value: float64 holds them
    exactly, so what such a cell converts to is the same whether pandas
    makes its column int64 or, because another cell is missing or is not
    an integer, float64. *)
Inductive jvalue : Type :=
| JNull
| JStr (s : string)
| JInt (z : Z) (safe : safe_int z = true).

(** One record of the log; [None] is a key the record does not have. *)
Record Event : Type := {
  ev_user_uuid : option jvalue;
  ev_page_view_count : option jvalue;
  ev_last_seen_ts : option jvalue
}.

Record Activity : Type := {
  act_uuid : string;
  total_page_views : Z;
  last_seen_ts : option Z
}.

(** [x if is_valid_uuid(str(x)) else pd.NA].  [str] of a missing value, of
    null or of an integer is "nan", "<NA>", "None" or a numeral; [UUID_RE]
    matches none of them, so only a string can be kept. *)
Definition web_identity (x : option jvalue) : option string :=
  match x with
  | Some (JStr s) => validate_identity (Some s)
  | _ => None
  end.

(** [coerce_numeric(...).fillna(0).astype("Int64")] on one cell; [None]
    when the cast raises.  The source converts the column as a whole; on
    integers below 2^53 in absolute value the result is the same for every
    dtype the column can take, which is why [JInt] holds no other. *)
Definition page_views (x : option jvalue) : option Z :=
  match x with
  | None | Some JNull => Some 0%Z
  | Some (JInt z _) => Some z
  | Some (JStr s) =>
      match to_numeric s with
      | None => Some 0%Z
      | Some f => float_to_int64 f
      end
  end.

(** [to_iso_timestamp] on one cell of the log. *)
Definition web_timestamp (x : option jvalue) : option Z :=
  match x with
  | None | Some JNull => None
  | Some (JStr s) => to_datetime s
  | Some (JInt z _) => epoch_to_datetime z
  end.

(** A kept record after the conversions. *)
Record WebRow : Type := {
  w_uuid : option string;
  w_count : Z;
  w_ts : option Z
}.

Definition web_counts (e : Event) : option (Event * Z) :=
  option_map (pair e) (page_views (ev_page_view_count e)).

Definition web_row (ec : Event * Z) : WebRow :=
  {| w_uuid := web_identity (ev_user_uuid (fst ec));
     w_count := snd ec;
     w_ts := web_timestamp (ev_last_seen_ts (fst ec)) |}.

Definition web_agg (g : string * list WebRow) : Activity :=
  {| act_uuid := fst g;
     total_page_views := wrap64 (Zsum (map w_count (snd g)));
     last_seen_ts := ts_max (map w_ts (snd g)) |}.

(** The lines that [json.loads] turned into a record; blank lines and
    lines that raise [JSONDecodeError] are [None] already in the input, and
    every other line is taken to be a JSON object. *)
Definition web_records (lines : list (option Event)) : list Event :=
  flat_map (fun l => match l with Some e => [e] | None => [] end) lines.

(** [read_web] from [df = pd.DataFrame(records)] on.
    [df.get("page_view_count", 0)] and [df.get("last_seen_ts", pd.NaT)]
    return a scalar when no record has the key, and the method call on it
    raises [AttributeError]. *)
Definition web_frame (records : list Event) : result (list Activity) :=
  let df := filter (fun e => is_some (web_identity (ev_user_uuid e))) records in
  if negb (existsb (fun e => is_some (ev_page_view_count e)) records)
  then Raise AttributeError
  else
    match map_opt web_counts df with
    | None => Raise TypeError
    | Some df1 =>
        if negb (existsb (fun e => is_some (ev_last_seen_ts e)) records)
        then Raise AttributeError
        else Ok (map web_agg (groupby w_uuid (map web_row df1)))
    end.

(** [read_web] *)
Definition read_web (lines : list (option Event)) : result (list Activity) :=
  match web_records lines with
  | [] => Ok []
  | records => web_frame records
  end.

(** *** Transactions data *)

Record TxSummary : Type := {
  tx_uuid : string;
  total_spent : float64;
  transactions_count : Z;
  last_transaction_ts : option Z
}.

Definition tx_amount (df : DataFrame) (r : row) : option float64 :=
  coerce_numeric (get df "amount" r).

(** [df["status"].str.lower().str.strip()] *)
Definition tx_status (r : row) : option string :=
  option_map (fun s => PyStr.strip (PyStr.lower s)) (cell r "status").

Definition tx_user_uuid (df : DataFrame) (r : row) : option string :=
  get df "user_uuid" r.

(** [df["amount"] > 0]; a comparison with NaN is false. *)
Definition amount_gt0 (a : option float64) : bool :=
  match a with
  | Some x => float_gt0 x
  | None => false
  end.

(** [df["status"] != "completed"]; a missing status differs. *)
Definition status_ne_completed (s : option string) : bool :=
  match s with
  | Some v => negb (String.eqb v "completed")
  | None => true
  end.

Definition bad_uuid (df : DataFrame) : list bool :=
  map (fun r => negb (is_valid_uuid (tx_user_uuid df r))) (rows df).

Definition non_positive (df : DataFrame) : list bool :=
  map (fun r => negb (amount_gt0 (tx_amount df r))) (rows df).

Definition bad_status (df : DataFrame) : list bool :=
  map (fun r => status_ne_completed (tx_status r)) (rows df).

(** The [transaction_id] of a row after [.fillna("<missing>")]. *)
Definition tid_or_missing (r : row) : string :=
  match cell r "transaction_id" with
  | Some t => t
  | None => "<missing>"
  end.

(** [df.loc[mask, "transaction_id"].fillna("<missing>")] *)
Definition rejected_ids (df : DataFrame) (mask : list bool) : list string :=
  map tid_or_missing (select mask (rows df)).

(** [f"{tid}\t{reason}"] *)
Definition rejection_record (tid reason : string) : string :=
  (tid ++ String "009" reason)%string.

(** [for tid in tids: reasons.append(f"{tid}\t{reason}")] *)
Definition log_rejections (reason : string) (tids : list string)
  (reasons : list string) : list string :=
  fold_left (fun acc tid => acc ++ [rejection_record tid reason]) tids reasons.

(** [~(bad_uuid | non_positive | bad_status)] *)
Fixpoint valid_mask (a b c : list bool) : list bool :=
  match a, b, c with
  | x :: a', y :: b', z :: c' => negb (x || y || z) :: valid_mask a' b' c'
  | _, _, _ => []
  end.

Definition TX_TS_COLUMNS : list string := ["timestamp"; "created_at"; "tx_ts"].

(** The rows kept for aggregation, [df_valid]. *)
Definition tx_valid (df : DataFrame) : list row :=
  select (valid_mask (bad_uuid df) (non_positive df) (bad_status df)) (rows df).

Definition tx_agg (df : DataFrame) (g : string * list row) : TxSummary :=
  {| tx_uuid := fst g;
     total_spent :=
       float_sum (flat_map (fun r => match tx_amount df r with
                                     | Some x => [x]
                                     | None => []
                                     end) (snd g));
     transactions_count :=
       Z.of_nat (List.length (filter (fun r => is_some (cell r "transaction_id")) (snd g)));
     last_transaction_ts :=
       match first_present TX_TS_COLUMNS df with
       | Some c => ts_max (map (fun r => to_iso_timestamp (cell r c)) (snd g))
       | None => None
       end |}.

Definition tx_reasons (df : DataFrame) : list string :=
  let reasons := [] in
  let reasons := log_rejections "INVALID_UUID" (rejected_ids df (bad_uuid df)) reasons in
  let reasons :=
    log_rejections "NON_POSITIVE_AMOUNT" (rejected_ids df (non_positive df)) reasons in
  log_rejections "INVALID_STATUS" (rejected_ids df (bad_status df)) reasons.

(** [read_transactions].  Without a [status] column [df.get("status", "")]
    is a [str] and [.str] raises [AttributeError]; without a
    [transaction_id] column [df.loc[mask, "transaction_id"]] raises
    [KeyError]. *)
Definition read_transactions (df : DataFrame)
  : result (list TxSummary * list string) :=
  if negb (has_column df "status") then Raise AttributeError
  else if negb (has_column df "transaction_id") then Raise KeyError
  else Ok (map (tx_agg df) (groupby (tx_user_uuid df) (tx_valid df)),
           tx_reasons df).

(** *** Main orchestration *)

(** A row of the merged frame after the numeric columns are filled. *)
Record Customer360 : Type := {
  c_lead : Lead;
  c_total_page_views : Z;
  c_last_seen_ts : option Z;
  c_total_spent : float64;
  c_transactions_count : Z;
  c_last_transaction_ts : option Z
}.

(** [crm.merge(web, on="user_uuid", how="left").merge(tx, on="user_uuid", how="left")] *)
Definition merge_all (crm : list Lead) (web : list Activity) (tx : list TxSummary)
  : list (Lead * option Activity * option TxSummary) :=
  merge_left (fun la => lead_uuid (fst la)) (fun t => Some (tx_uuid t))
    (merge_left lead_uuid (fun a => Some (act_uuid a)) crm web) tx.

(** The three [fillna] lines of [main]. *)
Definition fill_defaults (m : Lead * option Activity * option TxSummary)
  : Customer360 :=
  let '(l, a, t) := m in
  {| c_lead := l;
     c_total_page_views := match a with Some x => total_page_views x | None => 0%Z end;
     c_last_seen_ts := match a with Some x => last_seen_ts x | None => None end;
     c_total_spent := match t with Some x => total_spent x | None => float_zero end;
     c_transactions_count :=
       match t with Some x => transactions_count x | None => 0%Z end;
     c_last_transaction_ts :=
       match t with Some x => last_transaction_ts x | None => None end |}.

(** [main], up to the writers: the merged dataset and the rejection log. *)
Definition main (crm_df : DataFrame) (web_lines : list (option Event))
  (tx_df : DataFrame) : result (list Customer360 * list string) :=
  let crm := read_crm crm_df in
  web <- read_web web_lines ;;
  txr <- read_transactions tx_df ;;
  Ok (map fill_defaults (merge_all crm web (fst txr)), snd txr).

(** *** Views used to state the properties *)

(** The page-view count of a record, [0] where the cast would raise. *)
Definition page_views_or_0 (e : Event) : Z :=
  match page_views (ev_page_view_count e) with
  | Some z => z
  | None => 0%Z
  end.

(** The count a record contributes, in words: 0 when the key is missing,
    when the value is null and when it is text that is not a number; the
    integer that the number written in a text is; the integer itself. *)
Inductive coerced_count : Event -> Z -> Prop :=
| count_missing (e : Event) :
    ev_page_view_count e = None -> coerced_count e 0
| count_null (e : Event) :
    ev_page_view_count e = Some JNull -> coerced_count e 0
| count_unparseable (e : Event) (s : string) :
    ev_page_view_count e = Some (JStr s) -> to_numeric s = None ->
    coerced_count e 0
| count_text (e : Event) (s : string) (f : float64) (c : Z) :
    ev_page_view_count e = Some (JStr s) -> to_numeric s = Some f ->
    float_to_int64 f = Some c -> coerced_count e c
| count_int (e : Event) (z : Z) (safe : safe_int z = true) :
    ev_page_view_count e = Some (JInt z safe) -> coerced_count e z.

(** The checks a transaction row fails, in the order they are logged. *)
Definition failed_checks (df : DataFrame) (r : row) : list string :=
  (if is_valid_uuid (tx_user_uuid df r) then [] else ["INVALID_UUID"])
  ++ (if amount_gt0 (tx_amount df r) then [] else ["NON_POSITIVE_AMOUNT"])
  ++ (if status_ne_completed (tx_status r) then ["INVALID_STATUS"] else []).

End Pipeline.

(** ** A small instance of the library

    Enough of pandas to run the pipeline on examples: numerals are the
    integer literals, timestamps are three fixed dates.  On the literals
    that occur in the examples it agrees with pandas. *)

Module Sample.

Definition digit (c : ascii) : option Z :=
  let n := N_of_ascii c in
  if ((48 <=? n) && (n <=? 57))%N then Some (Z.of_N (n - 48)) else None.

Fixpoint digits (acc : Z) (s : string) : option Z :=
  match s with
  | EmptyString => Some acc
  | String c s' =>
      match digit c with
      | Some d => digits (10 * acc + d)%Z s'
      | None => None
      end
  end.

Definition numeral (s : string) : option Z :=
  match s with
  | EmptyString => None
  | String "-" (String c s') => option_map Z.opp (digits 0 (String c s'))
  | _ => digits 0 s
  end.

Definition date (s : string) : option Z :=
  if String.eqb s "2023-01-01" then Some 1672531200000000000%Z
  else if String.eqb s "2023-01-02" then Some 1672617600000000000%Z
  else if String.eqb s "2023-01-03" then Some 1672704000000000000%Z
  else None.

Definition pandas : Pandas :=
  {| float64 := Z;
     to_numeric := numeral;
     float_gt0 := fun x => (0 <? x)%Z;
     float_zero := 0%Z;
     float_sum := fun l => fold_left Z.add l 0%Z;
     float_to_int64 := fun x => Some x;
     to_datetime := date;
     epoch_to_datetime :=
       fun z => if ((- 2 ^ 63 <? z) && (z <? 2 ^ 63))%Z then Some z else None |}.

(** A lead file: two rows share the email j@x.com, two rows have no
    email, and the first identity is padded with a blank. *)
Definition crm_frame : DataFrame :=
  {| columns := ["user_uuid"; "email"; "created_at"];
     rows :=
       [ [("user_uuid", " 123e4567-e89b-12d3-a456-426614174000");
          ("email", " J@X.COM "); ("created_at", "2023-01-01")];
         [("user_uuid", "ABCDEF01-2345-6789-abcd-ef0123456789");
          ("email", "j@x.com"); ("created_at", "2023-01-02")];
         [("user_uuid", "not-a-uuid"); ("created_at", "2023-01-02")];
         [("created_at", "unknown")];
         [("email", "a@b.c"); ("created_at", "unknown")];
         [("email", "A@B.C"); ("created_at", "unknown")];
         [("email", "j@x.com"); ("created_at", "2023-01-02")] ] |}.

Definition lead (i : nat) (u e : option string) (t : option Z) : Lead :=
  {| lead_index := i; lead_uuid := u; lead_email := e; lead_ts := t |}.

(** A ledger with one row, complete but for its [transaction_id]. *)
Definition tx_missing_id : DataFrame :=
  {| columns := ["transaction_id"; "user_uuid"; "amount"; "status"];
     rows :=
       [ [("user_uuid", "123e4567-e89b-12d3-a456-426614174000");
          ("amount", "10"); ("status", "completed")] ] |}.

(** A ledger whose rows fail none, two, two and one of the checks. *)
Definition tx_frame : DataFrame :=
  {| columns := ["transaction_id"; "user_uuid"; "amount"; "status"; "timestamp"];
     rows :=
       [ [("transaction_id", "t1");
          ("user_uuid", "123e4567-e89b-12d3-a456-426614174000");
          ("amount", "10"); ("status", " Completed ");
          ("timestamp", "2023-01-02")];
         [("transaction_id", "t2"); ("user_uuid", "bad"); ("amount", "-5");
          ("status", "Completed")];
         [("transaction_id", "t3");
          ("user_uuid", "ABCDEF01-2345-6789-abcd-ef0123456789");
          ("amount", "x"); ("status", "pending")];
         [("user_uuid", "ABCDEF01-2345-6789-abcd-ef0123456789");
          ("amount", "4"); ("status", "refunded")] ] |}.

Definition event (u p t : option jvalue) : option Event :=
  Some {| ev_user_uuid := u; ev_page_view_count := p; ev_last_seen_ts := t |}.

(** An activity log: two records of one identity, a line that is not
    JSON, and a record of another identity. *)
Definition web_lines : list (option Event) :=
  [ event (Some (JStr "ABCDEF01-2345-6789-abcd-ef0123456789")) (Some (JStr "3"))
          (Some (JStr "2023-01-01"));
    None;
    event (Some (JStr "ABCDEF01-2345-6789-abcd-ef0123456789")) (Some (JStr "abc"))
          (Some (JStr "2023-01-03"));
    event (Some (JStr "123e4567-e89b-12d3-a456-426614174000")) (Some (JInt 7 eq_refl))
          (Some JNull) ].

(** What the pipeline returns on the sample files. *)
Definition web_summary : list Activity :=
  [ {| act_uuid := "123e4567-e89b-12d3-a456-426614174000";
       total_page_views := 7; last_seen_ts := None |};
    {| act_uuid := "ABCDEF01-2345-6789-abcd-ef0123456789";
       total_page_views := 3; last_seen_ts := Some 1672704000000000000%Z |} ].

Definition tx_summary : list (@TxSummary pandas) :=
  [ {| tx_uuid := "123e4567-e89b-12d3-a456-426614174000";
       total_spent := 10%Z : @float64 pandas;
       transactions_count := 1;
       last_transaction_ts := Some 1672617600000000000%Z |} ].

Definition tx_log : list string :=
  [ ("t2" ++ String "009" "INVALID_UUID")%string;
    ("t2" ++ String "009" "NON_POSITIVE_AMOUNT")%string;
    ("t3" ++ String "009" "NON_POSITIVE_AMOUNT")%string;
    ("t3" ++ String "009" "INVALID_STATUS")%string;
    ("<missing>" ++ String "009" "INVALID_STATUS")%string ].

Definition merged : list (@Customer360 pandas) :=
  [ {| c_lead := lead 1 (Some "ABCDEF01-2345-6789-abcd-ef0123456789")
                   (Some "j@x.com") (Some 1672617600000000000%Z);
       c_total_page_views := 3;
       c_last_seen_ts := Some 1672704000000000000%Z;
       c_total_spent := 0%Z : @float64 pandas;
       c_transactions_count := 0;
       c_last_transaction_ts := None |};
    {| c_lead := lead 2 None None (Some 1672617600000000000%Z);
       c_total_page_views := 0;
       c_last_seen_ts := None;
       c_total_spent := 0%Z : @float64 pandas;
       c_transactions_count := 0;
       c_last_transaction_ts := None |};
    {| c_lead := lead 4 None (Some "a@b.c") None;
       c_total_page_views := 0;
       c_last_seen_ts := None;
       c_total_spent := 0%Z : @float64 pandas;
       c_transactions_count := 0;
       c_last_transaction_ts := None |} ].

(** A lead file with two rows, neither with an email. *)
Definition crm_no_email : DataFrame :=
  {| columns := ["user_uuid"; "email"; "created_at"];
     rows := [ [("created_at", "2023-01-01")]; [("created_at", "2023-01-02")] ] |}.

(** A log with one record, whose count is negative. *)
Definition web_negative : list (option Event) :=
  [ event (Some (JStr "123e4567-e89b-12d3-a456-426614174000")) (Some (JInt (-5) eq_refl))
          (Some (JStr "2023-01-01")) ].

End Sample.

(** ** Output helpers *)

(** An open text file: the text written to it so far. *)
Definition f_write (f : string) (s : string) : string := (f ++ s)%string.

(** [write_reject_log(reasons, path)]: the text of the file once it is
    closed.  The file is opened with ["w"], so it starts empty. *)
Definition write_reject_log (reasons : list string) : string :=
  let f := EmptyString in
  let f := f_write f ("transaction_id" ++ String "009" "rejection_reason"
                      ++ String "010" "")%string in
  fold_left (fun f r => f_write f (r ++ String "010" "")%string) reasons f.

(** [s.split("\n")] *)
Fixpoint split_newline (s : string) : list string :=
  match s with
  | EmptyString => [EmptyString]
  | String c s' =>
      if (N_of_ascii c =? 10)%N then EmptyString :: split_newline s'
      else match split_newline s' with
           | h :: t => String c h :: t
           | [] => [String c EmptyString]
           end
  end.

(** *** Views on strings used to state the properties *)

(** A string that does not start with white space. *)
Definition head_not_space (s : string) : Prop :=
  match s with
  | EmptyString => True
  | String c _ => PyStr.is_space c = false
  end.

(** A string of white space only. *)
Definition all_space (p : string) : Prop :=
  Forall (fun c => PyStr.is_space c = true) (list_ascii_of_string p).

(** A pattern atom that cannot tell a letter from its lower case. *)
Definition caseless (a : Re.atom) : Prop :=
  match a with
  | Re.Chr c => forall d, Ascii.eqb c (PyStr.lower_char d) = Ascii.eqb c d
  | Re.Rep cls _ =>
      forall d, Re.in_class cls (PyStr.lower_char d) = Re.in_class cls d
  | _ => True
  end.

(** A string without a line feed. *)
Definition no_newline (s : string) : Prop :=
  Forall (fun c => N_of_ascii c <> 10%N) (list_ascii_of_string s).

(** More sample files. *)
Module Sample2.

(** A lead file without any timestamp column. *)
Definition crm_no_ts : DataFrame :=
  {| columns := ["user_uuid"; "email"];
     rows := [ [("email", "b@x.com")]; [("email", "a@x.com")];
               [("email", " B@X.COM")] ] |}.

(** An activity log in two parts. *)
Definition web_part1 : list (option Event) :=
  [ Sample.event (Some (JStr "ABCDEF01-2345-6789-abcd-ef0123456789"))
      (Some (JStr "3")) (Some (JStr "2023-01-01")) ].

Definition web_part2 : list (option Event) :=
  [ Sample.event (Some (JStr "ABCDEF01-2345-6789-abcd-ef0123456789"))
      (Some (JInt 4 eq_refl)) (Some (JStr "2023-01-03")) ].

Definition activity (u : string) (n : Z) (t : option Z) : Activity :=
  {| act_uuid := u; total_page_views := n; last_seen_ts := t |}.

(** A ledger in which every row has its [transaction_id]. *)
Definition tx_with_ids : DataFrame :=
  {| columns := ["transaction_id"; "user_uuid"; "amount"; "status"];
     rows :=
       [ [("transaction_id", "t1");
          ("user_uuid", "123e4567-e89b-12d3-a456-426614174000");
          ("amount", "10"); ("status", "completed")];
         [("transaction_id", "t2");
          ("user_uuid", "123e4567-e89b-12d3-a456-426614174000");
          ("amount", "5"); ("status", "COMPLETED")] ] |}.

Definition tx_with_ids_summary : list (@TxSummary Sample.pandas) :=
  [ {| tx_uuid := "123e4567-e89b-12d3-a456-426614174000";
       total_spent := 15%Z : @float64 Sample.pandas;
       transactions_count := 2;
       last_transaction_ts := None |} ].

(** The merged output for the sample lead file and ledger when the
    activity log has no record. *)
Definition merged_no_activity : list (@Customer360 Sample.pandas) :=
  map (fun l => {| c_lead := l;
                   c_total_page_views := 0;
                   c_last_seen_ts := None;
                   c_total_spent := 0%Z : @float64 Sample.pandas;
                   c_transactions_count := 0;
                   c_last_transaction_ts := None |})
      [ Sample.lead 1 (Some "ABCDEF01-2345-6789-abcd-ef0123456789")
          (Some "j@x.com") (Some 1672617600000000000%Z);
        Sample.lead 2 None None (Some 1672617600000000000%Z);
        Sample.lead 4 None (Some "a@b.c") None ].

End Sample2.

(** * Properties *)

(** ** Strings and the UUID pattern *)

Lemma existsb_eqb_In (c : ascii) (l : list ascii) :
  existsb (Ascii.eqb c) l = true <-> In c l.
Proof.
  rewrite existsb_exists. split.
  - intros [x [Hin Heq]]. apply Ascii.eqb_eq in Heq. now subst.
  - intros Hin. exists c. split; [assumption | apply Ascii.eqb_refl].
Qed.

Lemma in_class_HEX (c : ascii) :
  Re.in_class HEX c = existsb (Ascii.eqb c) (list_ascii_of_string "0123456789abcdefABCDEF").
Proof.
  destruct c as [[] [] [] [] [] [] [] []]; reflexivity.
Qed.

Lemma in_class_hex_digit (c : ascii) : Re.in_class HEX c = true <-> hex_digit c.
Proof.
  rewrite in_class_HEX. apply existsb_eqb_In.
Qed.

Lemma take_class_sound (n : nat) : forall s s',
  Re.take_class HEX n s = Some s' ->
  exists a, s = (a ++ s')%string /\ hex_group n a.
Proof.
  induction n as [|n IH]; intros s s' H; cbn [Re.take_class] in H.
  - injection H as <-. exists EmptyString. repeat split. constructor.
  - destruct s as [|c s]; [discriminate|].
    destruct (Re.in_class HEX c) eqn:Hc; [|discriminate].
    destruct (IH _ _ H) as [a [-> [Hl Hf]]].
    exists (String c a). split; [reflexivity|]. split.
    + simpl. now rewrite Hl.
    + simpl. constructor; [now apply in_class_hex_digit | assumption].
Qed.

Lemma take_class_complete (n : nat) : forall a s',
  hex_group n a -> Re.take_class HEX n (a ++ s')%string = Some s'.
Proof.
  induction n as [|n IH]; intros a s' [Hl Hf].
  - destruct a; [reflexivity | discriminate].
  - destruct a as [|c a]; [discriminate|].
    cbn [String.append Re.take_class String.length list_ascii_of_string] in *.
    inversion Hf as [|? ? Hc Hf']; subst.
    apply in_class_hex_digit in Hc. rewrite Hc.
    apply IH. split; [now injection Hl | assumption].
Qed.

Lemma last_char_app (a : string) (c : ascii) :
  PyStr.last_char (a ++ String c EmptyString)%string = Some c.
Proof.
  induction a as [|d a IH]; [reflexivity|].
  simpl. rewrite IH. destruct a; reflexivity.
Qed.

Lemma rstrip_last (s : string) (c : ascii) :
  PyStr.last_char (PyStr.rstrip s) = Some c -> PyStr.is_space c = false.
Proof.
  revert c. induction s as [|d s IH]; intros c H; simpl in H; [discriminate|].
  destruct (PyStr.rstrip s) as [|e t] eqn:E.
  - destruct (PyStr.is_space d) eqn:Hd; simpl in H; [discriminate|].
    now injection H as <-.
  - apply IH. exact H.
Qed.

Lemma strip_last (s : string) (c : ascii) :
  PyStr.last_char (PyStr.strip s) = Some c -> PyStr.is_space c = false.
Proof. apply rstrip_last. Qed.

Lemma at_end_cases (s : string) :
  Re.at_end s = true -> s = EmptyString \/ s = String "010" EmptyString.
Proof.
  destruct s as [|c [|d s]]; simpl; intros H; try discriminate; auto.
  right. apply N.eqb_eq in H. f_equal.
  rewrite <- (ascii_N_embedding c). now rewrite H.
Qed.

Lemma string_app_assoc (a b c : string) :
  ((a ++ b) ++ c)%string = (a ++ b ++ c)%string.
Proof. induction a as [|x a IH]; simpl; [reflexivity | now rewrite IH]. Qed.

Lemma string_app_nil_r (a : string) : (a ++ "")%string = a.
Proof. induction a as [|x a IH]; simpl; [reflexivity | now rewrite IH]. Qed.

(** What [UUID_RE.match] accepts: the shape, then the end of the string or
    one final newline. *)
Lemma UUID_RE_match (s : string) :
  Re.re_match UUID_RE s = true <->
  exists u rest, s = (u ++ rest)%string /\ uuid_shape u /\ Re.at_end rest = true.
Proof.
  unfold Re.re_match, UUID_RE. split.
  - cbn [Re.match_atoms andb Nat.eqb]. intros H.
    destruct (Re.take_class HEX 8 s) as [s1|] eqn:E1; [|discriminate].
    destruct s1 as [|c1 s1]; [discriminate|].
    apply andb_prop in H. destruct H as [H1 H]. apply Ascii.eqb_eq in H1. subst c1.
    destruct (Re.take_class HEX 4 s1) as [s2|] eqn:E2; [|discriminate].
    destruct s2 as [|c2 s2]; [discriminate|].
    apply andb_prop in H. destruct H as [H2 H]. apply Ascii.eqb_eq in H2. subst c2.
    destruct (Re.take_class HEX 4 s2) as [s3|] eqn:E3; [|discriminate].
    destruct s3 as [|c3 s3]; [discriminate|].
    apply andb_prop in H. destruct H as [H3 H]. apply Ascii.eqb_eq in H3. subst c3.
    destruct (Re.take_class HEX 4 s3) as [s4|] eqn:E4; [|discriminate].
    destruct s4 as [|c4 s4]; [discriminate|].
    apply andb_prop in H. destruct H as [H4 H]. apply Ascii.eqb_eq in H4. subst c4.
    destruct (Re.take_class HEX 12 s4) as [s5|] eqn:E5; [|discriminate].
    apply andb_prop in H. destruct H as [H5 _].
    apply take_class_sound in E1, E2, E3, E4, E5.
    destruct E1 as [a [-> Ha]], E2 as [b [-> Hb]], E3 as [c [-> Hc]],
             E4 as [d [-> Hd]], E5 as [e [-> He]].
    exists (a ++ "-" ++ b ++ "-" ++ c ++ "-" ++ d ++ "-" ++ e)%string, s5.
    split; [|split; [exists a, b, c, d, e; tauto | assumption]].
    repeat (rewrite string_app_assoc; simpl). reflexivity.
  - intros [u [rest [-> [[a [b [c [d [e [-> [Ha [Hb [Hc [Hd He]]]]]]]]]] Hr]]]].
    repeat (rewrite string_app_assoc; cbn [String.append]).
    cbn [Re.match_atoms andb Nat.eqb].
    rewrite (take_class_complete _ Ha).
    rewrite Ascii.eqb_refl. cbn [andb].
    rewrite (take_class_complete _ Hb).
    rewrite Ascii.eqb_refl. cbn [andb].
    rewrite (take_class_complete _ Hc).
    rewrite Ascii.eqb_refl. cbn [andb].
    rewrite (take_class_complete _ Hd).
    rewrite Ascii.eqb_refl. cbn [andb].
    rewrite (take_class_complete _ He).
    now rewrite Hr.
Qed.

(** On a stripped string the final newline cannot occur, so the match is
    exactly the shape. *)
Lemma is_valid_uuid_shape (s : string) :
  is_valid_uuid (Some s) = true <-> uuid_shape (PyStr.strip s).
Proof.
  unfold is_valid_uuid. rewrite UUID_RE_match. split.
  - intros [u [rest [Heq [Hu Hr]]]].
    destruct (at_end_cases _ Hr) as [-> | ->].
    + rewrite string_app_nil_r in Heq. now rewrite Heq.
    + pose proof (strip_last s) as Hl. rewrite Heq, last_char_app in Hl.
      specialize (Hl _ eq_refl). discriminate.
  - intros Hu. exists (PyStr.strip s), EmptyString.
    rewrite string_app_nil_r. repeat split. assumption.
Qed.

Lemma validate_identity_some (v : option string) (s : string) :
  validate_identity v = Some s <-> v = Some s /\ uuid_shape (PyStr.strip s).
Proof.
  unfold validate_identity. destruct (is_valid_uuid v) eqn:E.
  - split.
    + intros ->. split; [reflexivity | now apply is_valid_uuid_shape].
    + now intros [-> _].
  - split; [discriminate|]. intros [-> H].
    apply is_valid_uuid_shape in H. congruence.
Qed.

Lemma validate_identity_none (v : option string) :
  validate_identity v = None <->
  forall s, v = Some s -> ~ uuid_shape (PyStr.strip s).
Proof.
  split.
  - intros H s -> Hs.
    assert (validate_identity (Some s) = Some s) by now apply validate_identity_some.
    congruence.
  - intros H. destruct (validate_identity v) as [s|] eqn:E; [|reflexivity].
    apply validate_identity_some in E. destruct E as [-> Hs].
    exfalso. exact (H s eq_refl Hs).
Qed.

(** ** Sorting, deduplication, grouping and joining *)

Lemma key_eqb_eq (a b : option string) : key_eqb a b = true <-> a = b.
Proof.
  destruct a as [x|], b as [y|]; simpl; try (split; congruence).
  rewrite String.eqb_eq. split; congruence.
Qed.

Lemma key_eqb_neq (a b : option string) : key_eqb a b = false <-> a <> b.
Proof.
  rewrite <- key_eqb_eq. destruct (key_eqb a b); split; congruence.
Qed.

Lemma key_eqb_refl (a : option string) : key_eqb a a = true.
Proof. now apply key_eqb_eq. Qed.

Lemma NoDup_map_inj (A B : Type) (f : A -> B) (l : list A) (x y : A) :
  NoDup (map f l) -> In x l -> In y l -> f x = f y -> x = y.
Proof.
  induction l as [|a l IH]; simpl; intros Hnd Hx Hy Hf; [contradiction|].
  inversion Hnd as [|? ? Hnotin Hnd']; subst.
  destruct Hx as [-> | Hx], Hy as [-> | Hy]; auto.
  - exfalso. apply Hnotin. rewrite Hf. now apply in_map.
  - exfalso. apply Hnotin. rewrite <- Hf. now apply in_map.
Qed.

Section SortingFacts.

Variable A : Type.
Variable before : A -> A -> bool.

Lemma insert_sorted_perm (x : A) (l : list A) :
  Permutation (insert_sorted before x l) (x :: l).
Proof.
  induction l as [|y l IH]; simpl; [reflexivity|].
  destruct (before x y); [reflexivity|].
  rewrite IH. apply perm_swap.
Qed.

Lemma stable_sort_perm (l : list A) : Permutation (stable_sort before l) l.
Proof.
  induction l as [|x l IH]; simpl; [reflexivity|].
  rewrite insert_sorted_perm. now constructor.
Qed.

Lemma stable_sort_In (l : list A) (x : A) : In x (stable_sort before l) <-> In x l.
Proof.
  split; apply Permutation_in;
    [apply stable_sort_perm | symmetry; apply stable_sort_perm].
Qed.

Hypothesis before_total : forall a b, before a b = true \/ before b a = true.
Hypothesis before_trans :
  forall a b c, before a b = true -> before b c = true -> before a c = true.

Let le (a b : A) : Prop := before a b = true.

Lemma insert_sorted_sorted (x : A) (l : list A) :
  StronglySorted le l -> StronglySorted le (insert_sorted before x l).
Proof.
  induction l as [|y l IH]; simpl; intros Hs.
  - repeat constructor.
  - inversion Hs as [|? ? Hs' Hall]; subst.
    destruct (before x y) eqn:E.
    + constructor; [assumption|]. constructor; [exact E|].
      eapply Forall_impl; [|exact Hall]. intros z Hz. unfold le in *. eauto.
    + constructor; [now apply IH|].
      eapply Permutation_Forall; [symmetry; apply insert_sorted_perm|].
      constructor; [|assumption].
      destruct (before_total x y) as [H|H]; [congruence | exact H].
Qed.

Lemma stable_sort_sorted (l : list A) : StronglySorted le (stable_sort before l).
Proof.
  induction l as [|x l IH]; simpl; [constructor | now apply insert_sorted_sorted].
Qed.

(** In a sorted list, what stands in front of an element is before it. *)
Lemma sorted_split (l1 l2 : list A) (x y : A) :
  StronglySorted le (l1 ++ x :: l2) -> In y l2 -> before x y = true.
Proof.
  induction l1 as [|a l1 IH]; simpl; intros Hs Hy.
  - inversion Hs as [|? ? _ Hall]; subst.
    rewrite Forall_forall in Hall. now apply Hall.
  - inversion Hs; subst. now apply IH.
Qed.

End SortingFacts.

Section DropDuplicatesFacts.

Variable A : Type.
Variable key : A -> option string.

Lemma drop_seen_In (l : list A) : forall seen x,
  In x (drop_seen key seen l) <->
  exists l1 l2, l = l1 ++ x :: l2
    /\ (forall y, In y l1 -> key y <> key x)
    /\ (forall k, In k seen -> k <> key x).
Proof.
  induction l as [|a l IH]; intros seen x; simpl.
  - split; [contradiction|]. intros [l1 [l2 [H _]]]. now destruct l1.
  - destruct (existsb (key_eqb (key a)) seen) eqn:E.
    + rewrite IH. split.
      * intros [l1 [l2 [-> [H1 H2]]]]. exists (a :: l1), l2.
        split; [reflexivity|]. split; [|assumption].
        intros y [<- | Hy]; [|now apply H1].
        apply existsb_exists in E. destruct E as [k [Hk Hek]].
        apply key_eqb_eq in Hek. rewrite Hek. now apply H2.
      * intros [l1 [l2 [Heq [H1 H2]]]]. destruct l1 as [|b l1]; simpl in Heq.
        -- injection Heq as -> ->. exfalso.
           apply existsb_exists in E. destruct E as [k [Hk Hek]].
           apply key_eqb_eq in Hek. now apply (H2 k Hk).
        -- injection Heq as -> ->. exists l1, l2.
           split; [reflexivity|]. split; [|assumption].
           intros y Hy. apply H1. now right.
    + simpl. rewrite IH. split.
      * intros [<- | [l1 [l2 [-> [H1 H2]]]]].
        -- exists [], l. split; [reflexivity|]. split; [contradiction|].
           intros k Hk Heq. subst k.
           assert (existsb (key_eqb (key a)) seen = true); [|congruence].
           apply existsb_exists. exists (key a). split; [assumption|apply key_eqb_refl].
        -- exists (a :: l1), l2. split; [reflexivity|]. split.
           ++ intros y [<- | Hy]; [|now apply H1]. apply H2. now left.
           ++ intros k Hk. apply H2. now right.
      * intros [l1 [l2 [Heq [H1 H2]]]]. destruct l1 as [|b l1]; simpl in Heq.
        -- injection Heq as -> ->. now left.
        -- injection Heq as -> ->. right. exists l1, l2.
           split; [reflexivity|]. split.
           ++ intros y Hy. apply H1. now right.
           ++ intros k [<- | Hk]; [apply H1; now left | now apply H2].
Qed.

Lemma drop_duplicates_In (l : list A) (x : A) :
  In x (drop_duplicates key l) <->
  exists l1 l2, l = l1 ++ x :: l2 /\ (forall y, In y l1 -> key y <> key x).
Proof.
  unfold drop_duplicates. rewrite drop_seen_In. split.
  - intros [l1 [l2 [H1 [H2 _]]]]. now exists l1, l2.
  - intros [l1 [l2 [H1 H2]]]. exists l1, l2. repeat split; auto.
Qed.

Lemma drop_duplicates_incl (l : list A) (x : A) :
  In x (drop_duplicates key l) -> In x l.
Proof.
  rewrite drop_duplicates_In. intros [l1 [l2 [-> _]]].
  apply in_or_app. right. now left.
Qed.

Lemma drop_seen_NoDup (l : list A) : forall seen,
  NoDup (map key (drop_seen key seen l))
  /\ forall x, In x (drop_seen key seen l) -> ~ In (key x) seen.
Proof.
  induction l as [|a l IH]; intros seen; simpl.
  - split; [constructor | contradiction].
  - destruct (existsb (key_eqb (key a)) seen) eqn:E; [apply IH|].
    destruct (IH (key a :: seen)) as [Hnd Hnot]. split.
    + simpl. constructor; [|assumption].
      intros Hin. apply in_map_iff in Hin. destruct Hin as [y [Hk Hy]].
      apply (Hnot y Hy). left. now symmetry.
    + intros x [<- | Hx].
      * intros Hin.
        assert (existsb (key_eqb (key a)) seen = true); [|congruence].
        apply existsb_exists. exists (key a). split; [assumption|apply key_eqb_refl].
      * intros Hin. apply (Hnot x Hx). now right.
Qed.

Lemma drop_duplicates_NoDup (l : list A) : NoDup (map key (drop_duplicates key l)).
Proof. apply drop_seen_NoDup. Qed.

(** Every key of the input keeps a row. *)
Lemma drop_seen_keeps (l : list A) : forall seen x,
  In x l -> ~ In (key x) seen ->
  exists y, In y (drop_seen key seen l) /\ key y = key x.
Proof.
  induction l as [|a l IH]; intros seen x Hx Hns; simpl; [contradiction|].
  destruct (existsb (key_eqb (key a)) seen) eqn:E.
  - destruct Hx as [-> | Hx]; [|now apply IH].
    exfalso. apply Hns. apply existsb_exists in E. destruct E as [k [Hk Hek]].
    apply key_eqb_eq in Hek. now rewrite Hek.
  - destruct Hx as [-> | Hx].
    + exists x. split; [now left | reflexivity].
    + destruct (key_eqb (key a) (key x)) eqn:Eax.
      * apply key_eqb_eq in Eax. exists a. split; [now left | assumption].
      * apply key_eqb_neq in Eax.
        destruct (IH (key a :: seen) x Hx) as [y [Hy Hk]].
        -- intros [H | H]; [now apply Eax | now apply Hns].
        -- exists y. split; [now right | assumption].
Qed.

Lemma drop_duplicates_keeps (l : list A) (x : A) :
  In x l -> exists y, In y (drop_duplicates key l) /\ key y = key x.
Proof. intros Hx. now apply drop_seen_keeps. Qed.

Lemma NoDup_key_filter_le1 (l : list A) (k : option string) :
  NoDup (map key l) ->
  List.length (filter (fun x => key_eqb (key x) k) l) <= 1.
Proof.
  induction l as [|a l IH]; simpl; intros Hnd; [lia|].
  inversion Hnd as [|? ? Hnotin Hnd']; subst.
  destruct (key_eqb (key a) k) eqn:E; [|now apply IH].
  apply key_eqb_eq in E. simpl.
  assert (filter (fun x => key_eqb (key x) k) l = []) as ->; [|simpl; lia].
  destruct (filter (fun x => key_eqb (key x) k) l) as [|b t] eqn:F; [reflexivity|].
  exfalso. assert (In b (filter (fun x => key_eqb (key x) k) l)) as Hb
    by (rewrite F; now left).
  apply filter_In in Hb. destruct Hb as [Hb Hk]. apply key_eqb_eq in Hk.
  apply Hnotin. rewrite E, <- Hk. now apply in_map.
Qed.

End DropDuplicatesFacts.

(** ** The lead table *)

Ltac bool_to_prop :=
  repeat match goal with
  | H : (_ || _) = true |- _ => apply orb_true_iff in H
  | H : (_ && _) = true |- _ => apply andb_true_iff in H
  | H : _ /\ _ |- _ => destruct H
  | H : (_ <? _)%Z = true |- _ => apply Z.ltb_lt in H
  | H : (_ =? _)%Z = true |- _ => apply Z.eqb_eq in H
  | H : Nat.leb _ _ = true |- _ => apply Nat.leb_le in H
  | |- (_ || _) = true => apply orb_true_iff
  | |- (_ && _) = true => apply andb_true_iff
  | |- (_ <? _)%Z = true => apply Z.ltb_lt
  | |- (_ =? _)%Z = true => apply Z.eqb_eq
  | |- Nat.leb _ _ = true => apply Nat.leb_le
  end.

Lemma lead_before_total (a b : Lead) :
  lead_before a b = true \/ lead_before b a = true.
Proof.
  unfold lead_before.
  destruct (lead_ts a) as [x|], (lead_ts b) as [y|]; auto.
  - destruct (Z.lt_trichotomy x y) as [H | [H | H]].
    + right. bool_to_prop. left. bool_to_prop. lia.
    + destruct (Nat.le_ge_cases (lead_index a) (lead_index b)).
      * left. bool_to_prop. right. bool_to_prop. split; bool_to_prop; lia.
      * right. bool_to_prop. right. bool_to_prop. split; bool_to_prop; lia.
    + left. bool_to_prop. left. bool_to_prop. lia.
  - destruct (Nat.le_ge_cases (lead_index a) (lead_index b));
      [left | right]; bool_to_prop; lia.
Qed.

Lemma lead_before_trans (a b c : Lead) :
  lead_before a b = true -> lead_before b c = true -> lead_before a c = true.
Proof.
  unfold lead_before.
  destruct (lead_ts a) as [x|], (lead_ts b) as [y|], (lead_ts c) as [z|];
    intros H1 H2; try discriminate; try reflexivity.
  - bool_to_prop. destruct H1 as [H1 | H1], H2 as [H2 | H2]; bool_to_prop.
    + left. bool_to_prop. lia.
    + left. bool_to_prop. lia.
    + left. bool_to_prop. lia.
    + right. bool_to_prop. split; bool_to_prop; lia.
  - bool_to_prop. lia.
Qed.

(** Two rows that are each before the other have the same row order. *)
Lemma lead_before_antisym (a b : Lead) :
  lead_before a b = true -> lead_before b a = true -> lead_index a = lead_index b.
Proof.
  unfold lead_before.
  destruct (lead_ts a) as [x|], (lead_ts b) as [y|];
    intros H1 H2; try discriminate.
  - bool_to_prop. destruct H1 as [H1 | H1], H2 as [H2 | H2]; bool_to_prop; lia.
  - bool_to_prop. lia.
Qed.

Lemma map_fst_combine_seq (A : Type) (l : list A) : forall n,
  map fst (combine (seq n (List.length l)) l) = seq n (List.length l).
Proof.
  induction l as [|x l IH]; intros n; simpl; [reflexivity|].
  now rewrite IH.
Qed.

Lemma map_snd_combine_seq (A : Type) (l : list A) : forall n,
  map snd (combine (seq n (List.length l)) l) = l.
Proof.
  induction l as [|x l IH]; intros n; simpl; [reflexivity|].
  now rewrite IH.
Qed.

Lemma combine_seq_nth (A : Type) (l : list A) : forall n i x,
  In (i, x) (combine (seq n (List.length l)) l) ->
  n <= i /\ nth_error l (i - n) = Some x.
Proof.
  induction l as [|y l IH]; intros n i x; simpl; [contradiction|].
  intros [H | H].
  - injection H as <- <-. split; [lia|]. now rewrite Nat.sub_diag.
  - apply IH in H. destruct H as [Hle Hn]. split; [lia|].
    replace (i - n) with (S (i - S n)) by lia. exact Hn.
Qed.

Section CrmFacts.

Context {P : Pandas}.

Lemma crm_leads_index (df : DataFrame) :
  map lead_index (crm_leads df) = seq 0 (List.length (rows df)).
Proof.
  unfold crm_leads. rewrite map_map. simpl.
  apply (map_fst_combine_seq (rows df) 0).
Qed.

Lemma crm_leads_index_NoDup (df : DataFrame) : NoDup (map lead_index (crm_leads df)).
Proof. rewrite crm_leads_index. apply seq_NoDup. Qed.

Lemma crm_leads_NoDup (df : DataFrame) : NoDup (crm_leads df).
Proof. eapply NoDup_map_inv. apply crm_leads_index_NoDup. Qed.

(** A lead comes from the source row at its index. *)
Lemma crm_leads_source (df : DataFrame) (l : Lead) :
  In l (crm_leads df) ->
  exists r, nth_error (rows df) (lead_index l) = Some r
    /\ lead_uuid l = validate_identity (get df "user_uuid" r)
    /\ lead_email l = clean_email (get df "email" r).
Proof.
  unfold crm_leads. intros H. apply in_map_iff in H.
  destruct H as [[i r] [<- Hin]]. simpl.
  apply combine_seq_nth in Hin. destruct Hin as [_ Hn].
  rewrite Nat.sub_0_r in Hn. exists r. auto.
Qed.

Lemma read_crm_incl (df : DataFrame) (l : Lead) :
  In l (read_crm df) -> In l (crm_leads df).
Proof.
  unfold read_crm. intros H. apply drop_duplicates_incl in H.
  now apply stable_sort_In in H.
Qed.

(** The row kept for an email is the first of its group in sort order: a
    lead is kept exactly when it is before every lead with its email. *)
Lemma read_crm_In (df : DataFrame) (l : Lead) :
  In l (read_crm df) <->
  In l (crm_leads df)
  /\ forall l', In l' (crm_leads df) -> lead_email l' = lead_email l ->
                lead_before l l' = true.
Proof.
  pose proof (stable_sort_sorted lead_before lead_before_total lead_before_trans
                (crm_leads df)) as Hsorted.
  split.
  - intros H. split; [now apply read_crm_incl|].
    unfold read_crm in H. apply drop_duplicates_In in H.
    destruct H as [l1 [l2 [Heq Hfirst]]].
    intros l' Hl' Hemail. apply (stable_sort_In lead_before) in Hl'.
    rewrite Heq in Hl', Hsorted. apply in_app_or in Hl'.
    destruct Hl' as [Hl' | [<- | Hl']].
    + exfalso. now apply (Hfirst l').
    + destruct (lead_before_total l l); assumption.
    + eapply sorted_split; eassumption.
  - intros [Hin Hfirst]. unfold read_crm. apply drop_duplicates_In.
    pose proof Hin as Hs. apply (stable_sort_In lead_before) in Hs.
    apply in_split in Hs. destruct Hs as [l1 [l2 Heq]].
    exists l1, l2. split; [assumption|].
    intros y Hy Hemail.
    assert (In y (crm_leads df)) as Hyin.
    { apply (stable_sort_In lead_before). rewrite Heq. apply in_or_app. now left. }
    assert (y = l) as ->.
    { apply (NoDup_map_inj lead_index (crm_leads df)); auto.
      - apply crm_leads_index_NoDup.
      - apply lead_before_antisym; [|now apply Hfirst].
        rewrite Heq in Hsorted. clear - Hsorted Hy.
        induction l1 as [|a l1 IH]; [contradiction|].
        simpl in Hsorted. inversion Hsorted as [|? ? Hs' Hall]; subst.
        destruct Hy as [-> | Hy]; [|now apply IH].
        rewrite Forall_forall in Hall. apply Hall. apply in_or_app. right. now left. }
    assert (NoDup (stable_sort lead_before (crm_leads df))) as Hnd.
    { eapply Permutation_NoDup; [symmetry; apply stable_sort_perm|].
      apply crm_leads_NoDup. }
    rewrite Heq in Hnd. apply NoDup_remove_2 in Hnd. apply Hnd.
    apply in_or_app. now left.
Qed.

End CrmFacts.

Section CrmClaims.

Context {P : Pandas}.

(** Each email of the lead frame keeps exactly one row. *)
Lemma read_crm_unique (df : DataFrame) (k k' : Lead) :
  In k (read_crm df) -> In k' (read_crm df) -> lead_email k = lead_email k' ->
  k = k'.
Proof.
  intros Hk Hk' He.
  apply (NoDup_map_inj lead_email (read_crm df)); auto.
  apply drop_duplicates_NoDup.
Qed.

Lemma read_crm_keeps (df : DataFrame) (r : Lead) :
  In r (crm_leads df) ->
  exists k, In k (read_crm df) /\ lead_email k = lead_email r.
Proof.
  intros Hr. apply (drop_duplicates_keeps lead_email).
  now apply stable_sort_In.
Qed.

(** C1 (amended).  The identity of a lead is the [user_uuid] cell of its
    source row, unchanged (not stripped), exactly when the stripped cell has
    the 8-4-4-4-12 hexadecimal shape in either case; in every other case it
    is missing.  No input raises. *)
Theorem lead_identity_validated (df : DataFrame) (l : Lead) :
  In l (read_crm df) ->
  exists r, nth_error (rows df) (lead_index l) = Some r
    /\ (forall s, lead_uuid l = Some s <->
                  get df "user_uuid" r = Some s /\ uuid_shape (PyStr.strip s))
    /\ (lead_uuid l = None <->
        forall s, get df "user_uuid" r = Some s -> ~ uuid_shape (PyStr.strip s)).
Proof.
  intros Hl. apply read_crm_incl in Hl.
  destruct (crm_leads_source df l Hl) as [r [Hn [Hu _]]].
  exists r. split; [assumption|]. rewrite Hu. split.
  - intros s. apply validate_identity_some.
  - apply validate_identity_none.
Qed.

(** C5.  Of two leads with the same email, the one with the earlier
    timestamp, or with the same timestamp and the larger row index, is not
    in the lead table; the other one is, when the two are the whole group. *)
Theorem dedup_keeps_latest (df : DataFrame) (r1 r2 : Lead) :
  In r1 (crm_leads df) -> In r2 (crm_leads df) ->
  lead_email r1 = lead_email r2 ->
  (exists t1 t2, lead_ts r1 = Some t1 /\ lead_ts r2 = Some t2 /\ (t2 < t1)%Z)
  \/ (lead_ts r1 = lead_ts r2 /\ lead_index r1 < lead_index r2) ->
  ~ In r2 (read_crm df)
  /\ ((forall r, In r (crm_leads df) -> lead_email r = lead_email r1 ->
                 r = r1 \/ r = r2) ->
      In r1 (read_crm df)).
Proof.
  intros H1 H2 He Hts.
  assert (lead_before r1 r2 = true /\ lead_before r2 r1 = false) as [Hb Hnb].
  { unfold lead_before. destruct Hts as [[t1 [t2 [-> [-> Hlt]]]] | [Ht Hi]].
    - split.
      + bool_to_prop. left. bool_to_prop. assumption.
      + apply orb_false_iff. split; [apply Z.ltb_ge; lia|].
        apply andb_false_iff. left. apply Z.eqb_neq. lia.
    - rewrite Ht. destruct (lead_ts r2) as [t|].
      + split.
        * bool_to_prop. right. bool_to_prop. split; bool_to_prop; lia.
        * apply orb_false_iff. split; [apply Z.ltb_ge; lia|].
          apply andb_false_iff. right. apply Nat.leb_gt. assumption.
      + split; [bool_to_prop; lia | apply Nat.leb_gt; assumption]. }
  split.
  - intros Hin. apply read_crm_In in Hin. destruct Hin as [_ Hfirst].
    rewrite (Hfirst r1 H1 He) in Hnb. discriminate.
  - intros Hgroup. apply read_crm_In. split; [assumption|].
    intros l' Hl' Hel. destruct (Hgroup l' Hl' Hel) as [-> | ->].
    + destruct (lead_before_total r1 r1); assumption.
    + assumption.
Qed.

(** C6 (amended).  Missing emails form one deduplication key: the lead
    table has exactly one row without email when the lead frame has any,
    and none otherwise. *)
Theorem missing_email_one_key (df : DataFrame) :
  List.length (filter (fun l => key_eqb (lead_email l) None) (read_crm df))
  = Nat.min 1 (List.length (filter (fun l => key_eqb (lead_email l) None) (crm_leads df))).
Proof.
  pose proof (NoDup_key_filter_le1 lead_email (read_crm df) None
                (drop_duplicates_NoDup lead_email _)) as Hle.
  destruct (filter (fun l => key_eqb (lead_email l) None) (crm_leads df))
    as [|r t] eqn:F.
  - destruct (filter (fun l => key_eqb (lead_email l) None) (read_crm df))
      as [|k t'] eqn:F'; [reflexivity|]. exfalso.
    assert (In k (filter (fun l => key_eqb (lead_email l) None) (read_crm df))) as Hk
      by (rewrite F'; now left).
    apply filter_In in Hk. destruct Hk as [Hk Hkey].
    apply read_crm_incl in Hk.
    assert (In k (filter (fun l => key_eqb (lead_email l) None) (crm_leads df))) as Hk'
      by (apply filter_In; auto).
    rewrite F in Hk'. contradiction.
  - assert (In r (filter (fun l => key_eqb (lead_email l) None) (crm_leads df))) as Hr
      by (rewrite F; now left).
    apply filter_In in Hr. destruct Hr as [Hr Hkey].
    destruct (read_crm_keeps df r Hr) as [k [Hk Hek]].
    assert (In k (filter (fun l => key_eqb (lead_email l) None) (read_crm df))) as Hk'
      by (apply filter_In; split; [assumption | now rewrite Hek]).
    destruct (filter (fun l => key_eqb (lead_email l) None) (read_crm df));
      [contradiction|]. simpl in *. lia.
Qed.

(** C10.  For every lead there is exactly one kept row with its email.  If
    any row with that email has a parsed timestamp, so has the kept row,
    wherever the rows stand; if none has, the kept row is the one with the
    smallest row index. *)
Theorem dedup_prefers_parsed_timestamp (df : DataFrame) (r : Lead) :
  In r (crm_leads df) ->
  exists k, In k (read_crm df) /\ lead_email k = lead_email r
    /\ (forall k', In k' (read_crm df) -> lead_email k' = lead_email r -> k' = k)
    /\ ((exists r1, In r1 (crm_leads df) /\ lead_email r1 = lead_email r
                    /\ lead_ts r1 <> None) ->
        lead_ts k <> None)
    /\ ((forall r', In r' (crm_leads df) -> lead_email r' = lead_email r ->
                    lead_ts r' = None) ->
        forall r', In r' (crm_leads df) -> lead_email r' = lead_email r ->
                   lead_index k <= lead_index r').
Proof.
  intros Hr. destruct (read_crm_keeps df r Hr) as [k [Hk Hek]].
  exists k. split; [assumption|]. split; [assumption|].
  pose proof Hk as Hfirst. apply read_crm_In in Hfirst.
  destruct Hfirst as [Hkin Hfirst]. split; [|split].
  - intros k' Hk' Hek'. apply (read_crm_unique df); congruence.
  - intros [r1 [H1 [He1 Ht1]]] Hnone.
    assert (lead_before k r1 = true) as Hb by (apply Hfirst; congruence).
    unfold lead_before in Hb. rewrite Hnone in Hb.
    destruct (lead_ts r1); [discriminate | congruence].
  - intros Hall r' Hr' Her'.
    assert (lead_before k r' = true) as Hb by (apply Hfirst; congruence).
    unfold lead_before in Hb.
    rewrite (Hall k Hkin Hek), (Hall r' Hr' Her') in Hb.
    now apply Nat.leb_le.
Qed.

End CrmClaims.

(** C1, witness: the first row of the sample lead file is shadowed by a
    later one; the row kept for j@x.com is row 1. *)
Lemma lead_identity_validated_witness :
  exists r, nth_error (rows Sample.crm_frame) 1 = Some r
    /\ (forall s, Some "ABCDEF01-2345-6789-abcd-ef0123456789" = Some s <->
                  get Sample.crm_frame "user_uuid" r = Some s
                  /\ uuid_shape (PyStr.strip s))
    /\ (Some "ABCDEF01-2345-6789-abcd-ef0123456789" = None <->
        forall s, get Sample.crm_frame "user_uuid" r = Some s ->
                  ~ uuid_shape (PyStr.strip s)).
Proof.
  apply (lead_identity_validated (P := Sample.pandas) Sample.crm_frame
           (Sample.lead 1 (Some "ABCDEF01-2345-6789-abcd-ef0123456789")
              (Some "j@x.com") (Some 1672617600000000000%Z))).
  vm_compute. left. reflexivity.
Defined.

(** C1, counterexample: a padded identity passes the check and reaches the
    lead table with its padding, not stripped. *)
Lemma lead_identity_not_stripped :
  let raw := " 123e4567-e89b-12d3-a456-426614174000" in
  let df := {| columns := ["user_uuid"]; rows := [[("user_uuid", raw)]] |} in
  uuid_shape (PyStr.strip raw)
  /\ map lead_uuid (read_crm (P := Sample.pandas) df) = [Some raw]
  /\ Some raw <> Some (PyStr.strip raw).
Proof.
  split; [|split].
  - apply is_valid_uuid_shape. reflexivity.
  - reflexivity.
  - discriminate.
Qed.

(** ** Grouping *)

Lemma string_leb_trans (a b c : string) :
  String.leb a b = true -> String.leb b c = true -> String.leb a c = true.
Proof.
  unfold String.leb. revert b c.
  induction a as [|x a IH]; intros [|y b] [|z c]; simpl; try congruence.
  unfold Ascii.compare.
  destruct (N.compare_spec (N_of_ascii x) (N_of_ascii y)) as [Exy | Exy | Exy];
    destruct (N.compare_spec (N_of_ascii y) (N_of_ascii z)) as [Eyz | Eyz | Eyz];
    try congruence.
  - assert (N_of_ascii x = N_of_ascii z) as E by congruence.
    rewrite E, N.compare_refl. apply IH.
  - assert (N_of_ascii x < N_of_ascii z)%N as E by lia.
    apply N.compare_lt_iff in E. now rewrite E.
  - assert (N_of_ascii x < N_of_ascii z)%N as E by lia.
    apply N.compare_lt_iff in E. now rewrite E.
  - assert (N_of_ascii x < N_of_ascii z)%N as E by lia.
    apply N.compare_lt_iff in E. now rewrite E.
Qed.

Lemma Permutation_filter_compat (A : Type) (f : A -> bool) (l l' : list A) :
  Permutation l l' -> Permutation (filter f l) (filter f l').
Proof.
  induction 1 as [|x l l' _ IH|x y l|l l' l'' _ IH1 _ IH2]; simpl.
  - constructor.
  - destruct (f x); [now constructor | assumption].
  - destruct (f x), (f y); try reflexivity. apply perm_swap.
  - now transitivity (filter f l').
Qed.

Lemma existsb_perm (A : Type) (f : A -> bool) (l l' : list A) :
  Permutation l l' -> existsb f l = existsb f l'.
Proof.
  intros Hp. destruct (existsb f l) eqn:E, (existsb f l') eqn:E'; try reflexivity.
  - apply existsb_exists in E. destruct E as [x [Hx Hf]].
    assert (existsb f l' = true); [|congruence].
    apply existsb_exists. exists x. split; [|assumption].
    now apply (Permutation_in _ Hp).
  - apply existsb_exists in E'. destruct E' as [x [Hx Hf]].
    assert (existsb f l = true); [|congruence].
    apply existsb_exists. exists x. split; [|assumption].
    now apply (Permutation_in _ (Permutation_sym Hp)).
Qed.

Lemma nodup_keys_In (l : list string) (k : string) :
  In k (nodup_keys l) <-> In k l.
Proof.
  induction l as [|a l IH]; simpl; [tauto|].
  destruct (existsb (String.eqb a) l) eqn:E; simpl; rewrite IH.
  - split; [tauto|]. intros [<- | H]; [|assumption].
    apply existsb_exists in E. destruct E as [x [Hx Heq]].
    apply String.eqb_eq in Heq. now subst.
  - tauto.
Qed.

Lemma nodup_keys_NoDup (l : list string) : NoDup (nodup_keys l).
Proof.
  induction l as [|a l IH]; simpl; [constructor|].
  destruct (existsb (String.eqb a) l) eqn:E; [assumption|].
  constructor; [|assumption]. rewrite nodup_keys_In. intros Hin.
  assert (existsb (String.eqb a) l = true); [|congruence].
  apply existsb_exists. exists a. split; [assumption | apply String.eqb_refl].
Qed.

(** A duplicate-free list in ascending order is determined by its elements. *)
Lemma sorted_keys_unique (l1 : list string) : forall l2,
  StronglySorted (fun a b => String.leb a b = true) l1 ->
  StronglySorted (fun a b => String.leb a b = true) l2 ->
  NoDup l1 -> NoDup l2 -> (forall x, In x l1 <-> In x l2) -> l1 = l2.
Proof.
  induction l1 as [|a l1 IH]; intros [|b l2] Hs1 Hs2 Hn1 Hn2 Hin.
  - reflexivity.
  - exfalso. apply (Hin b). now left.
  - exfalso. apply (Hin a). now left.
  - inversion Hs1 as [|? ? Hs1' Ha]; subst. inversion Hs2 as [|? ? Hs2' Hb]; subst.
    inversion Hn1 as [|? ? Hna Hn1']; subst. inversion Hn2 as [|? ? Hnb Hn2']; subst.
    rewrite Forall_forall in Ha, Hb.
    assert (a = b) as ->.
    { destruct (proj1 (Hin a) (or_introl eq_refl)) as [E | Ha2]; [now symmetry|].
      destruct (proj2 (Hin b) (or_introl eq_refl)) as [E | Hb1]; [assumption|].
      apply String.leb_antisym; auto. }
    f_equal. apply IH; auto. intros x. split; intros Hx.
    + destruct (proj1 (Hin x) (or_intror Hx)) as [E | H]; [|assumption].
      subst. contradiction.
    + destruct (proj2 (Hin x) (or_intror Hx)) as [E | H]; [|assumption].
      subst. contradiction.
Qed.

Section GroupByFacts.

Variable A : Type.
Variable key : A -> option string.

Lemma group_keys_In (l : list A) (k : string) :
  In k (group_keys key l) <-> exists x, In x l /\ key x = Some k.
Proof.
  unfold group_keys. rewrite stable_sort_In, nodup_keys_In, in_flat_map.
  split; intros [x [Hx Hk]]; exists x; split; auto.
  - destruct (key x) as [k'|]; simpl in Hk; [|contradiction].
    destruct Hk as [-> | []]. reflexivity.
  - rewrite Hk. now left.
Qed.

Lemma group_keys_NoDup (l : list A) : NoDup (group_keys key l).
Proof.
  unfold group_keys.
  eapply Permutation_NoDup; [symmetry; apply stable_sort_perm|].
  apply nodup_keys_NoDup.
Qed.

Lemma group_keys_sorted (l : list A) :
  StronglySorted (fun a b => String.leb a b = true) (group_keys key l).
Proof.
  unfold group_keys.
  apply stable_sort_sorted; [apply String.leb_total | apply string_leb_trans].
Qed.

Lemma group_keys_perm (l l' : list A) :
  Permutation l l' -> group_keys key l = group_keys key l'.
Proof.
  intros Hp.
  apply sorted_keys_unique;
    auto using group_keys_sorted, group_keys_NoDup.
  intros k. rewrite !group_keys_In.
  split; intros [x [Hx Hk]]; exists x; split; auto.
  - now apply (Permutation_in _ Hp).
  - now apply (Permutation_in _ (Permutation_sym Hp)).
Qed.

Lemma groupby_keys (l : list A) : map fst (groupby key l) = group_keys key l.
Proof.
  unfold groupby. rewrite map_map. simpl. apply map_id.
Qed.

Lemma groupby_In (l : list A) (k : string) (g : list A) :
  In (k, g) (groupby key l) ->
  g = filter (fun x => key_eqb (key x) (Some k)) l /\ In k (group_keys key l).
Proof.
  unfold groupby. intros H. apply in_map_iff in H.
  destruct H as [k' [Heq Hk]]. injection Heq as -> <-. auto.
Qed.

(** Any function of the groups that does not depend on the order of the
    rows in a group gives the same table on a permuted frame. *)
Lemma groupby_perm (B : Type) (agg : string * list A -> B) (l l' : list A) :
  (forall k g g', Permutation g g' -> agg (k, g) = agg (k, g')) ->
  Permutation l l' ->
  map agg (groupby key l) = map agg (groupby key l').
Proof.
  intros Hagg Hp. unfold groupby.
  rewrite (group_keys_perm Hp), !map_map.
  apply map_ext. intros k. apply Hagg.
  now apply Permutation_filter_compat.
Qed.

End GroupByFacts.

Lemma Zsum_acc_perm (l l' : list Z) :
  Permutation l l' -> forall a, fold_left Z.add l a = fold_left Z.add l' a.
Proof.
  induction 1 as [|x l l' _ IH|x y l|l l' l'' _ IH1 _ IH2]; intros a; simpl.
  - reflexivity.
  - apply IH.
  - f_equal. lia.
  - now rewrite IH1.
Qed.

Lemma Zsum_perm (l l' : list Z) : Permutation l l' -> Zsum l = Zsum l'.
Proof. intros Hp. now apply Zsum_acc_perm. Qed.

Lemma ts_max2_swap (a x y : option Z) :
  ts_max2 (ts_max2 a x) y = ts_max2 (ts_max2 a y) x.
Proof.
  destruct a as [a|], x as [x|], y as [y|]; simpl; try reflexivity; f_equal; lia.
Qed.

Lemma ts_max_acc_perm (l l' : list (option Z)) :
  Permutation l l' ->
  forall a, fold_left ts_max2 l a = fold_left ts_max2 l' a.
Proof.
  induction 1 as [|x l l' _ IH|x y l|l l' l'' _ IH1 _ IH2]; intros a; simpl.
  - reflexivity.
  - apply IH.
  - f_equal. apply ts_max2_swap.
  - now rewrite IH1.
Qed.

Lemma ts_max_perm (l l' : list (option Z)) :
  Permutation l l' -> ts_max l = ts_max l'.
Proof. intros Hp. now apply ts_max_acc_perm. Qed.

Lemma Zsum_acc (l : list Z) : forall a, fold_left Z.add l a = (a + Zsum l)%Z.
Proof.
  unfold Zsum. induction l as [|x l IH]; intros a; simpl; [lia|].
  rewrite IH, (IH x). lia.
Qed.

Lemma Zsum_nonneg (l : list Z) : Forall (fun z => (0 <= z)%Z) l -> (0 <= Zsum l)%Z.
Proof.
  induction 1 as [|x l Hx _ IH]; [unfold Zsum; simpl; lia|].
  unfold Zsum in *. simpl. rewrite Zsum_acc. unfold Zsum. lia.
Qed.

(** ** The activity summary *)

Lemma filter_map_comm (A B : Type) (f : A -> B) (p : B -> bool) (l : list A) :
  filter p (map f l) = map f (filter (fun x => p (f x)) l).
Proof.
  induction l as [|x l IH]; simpl; [reflexivity|].
  destruct (p (f x)); simpl; now rewrite IH.
Qed.

Lemma filter_filter_absorb (A : Type) (p q : A -> bool) (l : list A) :
  (forall x, p x = true -> q x = true) ->
  filter p (filter q l) = filter p l.
Proof.
  intros Hpq. induction l as [|x l IH]; simpl; [reflexivity|].
  destruct (q x) eqn:Eq; simpl.
  - destruct (p x); now rewrite IH.
  - destruct (p x) eqn:Ep; [|assumption].
    apply Hpq in Ep. congruence.
Qed.

Lemma map_opt_perm (A B : Type) (f : A -> option B) (l l' : list A) :
  Permutation l l' ->
  match map_opt f l with
  | Some r => exists r', map_opt f l' = Some r' /\ Permutation r r'
  | None => map_opt f l' = None
  end.
Proof.
  induction 1 as [|x l l' _ IH|x y l|l l' l'' _ IH1 _ IH2]; simpl.
  - exists []. split; [reflexivity | constructor].
  - destruct (f x) as [b|]; [|reflexivity].
    destruct (map_opt f l) as [r|]; simpl.
    + destruct IH as [r' [-> Hp]]. simpl. exists (b :: r'). split; auto.
    + now rewrite IH.
  - destruct (f x) as [b|], (f y) as [c|]; try reflexivity;
      destruct (map_opt f l) as [r|]; simpl; try reflexivity.
    exists (b :: c :: r). split; [reflexivity | apply perm_swap].
  - destruct (map_opt f l) as [r|].
    + destruct IH1 as [r' [E' Hp]]. rewrite E' in IH2.
      destruct IH2 as [r'' [E'' Hp']]. exists r''. split; [assumption|].
      now transitivity r'.
    + now rewrite IH1 in IH2.
Qed.

Section WebFacts.

Context {P : Pandas}.

Lemma map_opt_web_counts (df : list Event) : forall df1,
  map_opt web_counts df = Some df1 ->
  df1 = map (fun e => (e, page_views_or_0 e)) df
  /\ Forall (fun e => page_views (ev_page_view_count e) = Some (page_views_or_0 e)) df.
Proof.
  induction df as [|e df IH]; simpl; intros df1 H.
  - injection H as <-. split; constructor.
  - unfold web_counts at 1 in H.
    destruct (page_views (ev_page_view_count e)) as [z|] eqn:E; simpl in H;
      [|discriminate].
    destruct (map_opt web_counts df) as [r|]; simpl in H; [|discriminate].
    injection H as <-. destruct (IH r eq_refl) as [-> Hall].
    assert (page_views_or_0 e = z) as Hz by (unfold page_views_or_0; now rewrite E).
    split; [now rewrite Hz | constructor; [now rewrite Hz | assumption]].
Qed.

Lemma web_agg_perm (k : string) (g g' : list WebRow) :
  Permutation g g' -> web_agg (k, g) = web_agg (k, g').
Proof.
  intros Hp. unfold web_agg. simpl.
  rewrite (Zsum_perm (Permutation_map w_count Hp)).
  now rewrite (ts_max_perm (Permutation_map w_ts Hp)).
Qed.

Lemma web_frame_perm (records records' : list Event) :
  Permutation records records' -> web_frame records' = web_frame records.
Proof.
  intros Hp. unfold web_frame.
  rewrite <- (existsb_perm (fun e => is_some (ev_page_view_count e)) Hp).
  rewrite <- (existsb_perm (fun e => is_some (ev_last_seen_ts e)) Hp).
  destruct (existsb (fun e => is_some (ev_page_view_count e)) records); [|reflexivity].
  simpl.
  pose proof (map_opt_perm web_counts
    (Permutation_filter_compat (fun e => is_some (web_identity (ev_user_uuid e))) Hp))
    as Hm.
  destruct (map_opt web_counts
              (filter (fun e => is_some (web_identity (ev_user_uuid e))) records))
    as [df1|].
  - destruct Hm as [df1' [-> Hp1]].
    destruct (existsb (fun e => is_some (ev_last_seen_ts e)) records); [|reflexivity].
    simpl. f_equal. symmetry. apply groupby_perm.
    + intros k g g'. apply web_agg_perm.
    + now apply Permutation_map.
  - now rewrite Hm.
Qed.

Lemma read_web_perm (lines lines' : list (option Event)) :
  Permutation lines lines' -> read_web lines' = read_web lines.
Proof.
  intros Hp. unfold read_web.
  assert (Permutation (web_records lines) (web_records lines')) as Hr
    by (unfold web_records; now apply Permutation_flat_map).
  destruct (web_records lines) as [|e t] eqn:E.
  - apply Permutation_nil in Hr. now rewrite Hr.
  - destruct (web_records lines') as [|e' t'] eqn:E'.
    + symmetry in Hr. apply Permutation_nil in Hr. discriminate.
    + now apply web_frame_perm.
Qed.

(** The summary rows are the groups of the kept records. *)
Lemma read_web_row (lines : list (option Event)) (acts : list Activity) (a : Activity) :
  read_web lines = Ok acts -> In a acts ->
  let evs := filter (fun e => key_eqb (web_identity (ev_user_uuid e)) (Some (act_uuid a)))
                    (web_records lines) in
  Forall (fun e => page_views (ev_page_view_count e) = Some (page_views_or_0 e)) evs
  /\ evs <> []
  /\ total_page_views a = wrap64 (Zsum (map page_views_or_0 evs))
  /\ last_seen_ts a = ts_max (map (fun e => web_timestamp (ev_last_seen_ts e)) evs).
Proof.
  unfold read_web. intros H Ha.
  assert (web_frame (web_records lines) = Ok acts) as Hf.
  { destruct (web_records lines); [|assumption].
    injection H as <-. contradiction. }
  clear H. unfold web_frame in Hf.
  destruct (existsb (fun e => is_some (ev_page_view_count e)) (web_records lines));
    [|discriminate]. simpl in Hf.
  destruct (map_opt web_counts _) as [df1|] eqn:Hm; [|discriminate].
  destruct (existsb (fun e => is_some (ev_last_seen_ts e)) (web_records lines));
    [|discriminate]. simpl in Hf. injection Hf as <-.
  apply map_opt_web_counts in Hm. destruct Hm as [-> Hall].
  apply in_map_iff in Ha. destruct Ha as [[k g] [<- Hg]].
  apply groupby_In in Hg. destruct Hg as [-> Hk]. simpl.
  rewrite map_map, filter_map_comm. simpl.
  rewrite filter_filter_absorb.
  2:{ intros e He. apply key_eqb_eq in He. now rewrite He. }
  repeat split.
  - rewrite Forall_forall in *. intros e He. apply filter_In in He.
    destruct He as [He Hkey]. apply Hall. apply filter_In. split; [assumption|].
    apply key_eqb_eq in Hkey. now rewrite Hkey.
  - apply group_keys_In in Hk. destruct Hk as [w [Hw Hkw]].
    apply in_map_iff in Hw. destruct Hw as [ez [<- He]].
    apply in_map_iff in He. destruct He as [e [<- He]]. simpl in Hkw.
    apply filter_In in He. destruct He as [He _].
    intros Hnil.
    assert (In e (filter (fun e0 => key_eqb (web_identity (ev_user_uuid e0)) (Some k))
                         (web_records lines))) as Hin
      by (apply filter_In; split; [assumption | now apply key_eqb_eq]).
    rewrite Hnil in Hin. contradiction.
  - now rewrite !map_map.
  - now rewrite !map_map.
Qed.

Lemma read_web_keys_NoDup (lines : list (option Event)) (acts : list Activity) :
  read_web lines = Ok acts -> NoDup (map act_uuid acts).
Proof.
  unfold read_web. intros H.
  destruct (web_records lines) as [|e t] eqn:E; [injection H as <-; constructor|].
  rewrite <- E in H. clear E. unfold web_frame in H.
  destruct (existsb (fun e => is_some (ev_page_view_count e)) (web_records lines));
    [|discriminate]. simpl in H.
  destruct (map_opt web_counts _) as [df1|]; [|discriminate].
  destruct (existsb (fun e => is_some (ev_last_seen_ts e)) (web_records lines));
    [|discriminate]. simpl in H. injection H as <-.
  rewrite map_map.
  replace (map (fun x => act_uuid (web_agg x)) (groupby w_uuid (map web_row df1)))
    with (map fst (groupby w_uuid (map web_row df1))) by (apply map_ext; reflexivity).
  rewrite groupby_keys. apply group_keys_NoDup.
Qed.

Lemma wrap64_small (z : Z) : (0 <= z < 2 ^ 63)%Z -> wrap64 z = z.
Proof.
  intros H. unfold wrap64. rewrite Z.mod_small; lia.
Qed.

(** C8.  Permuting the lines of the activity log changes nothing in what
    [read_web] returns: the same exception, or the same summary with the
    same [total_page_views] and [last_seen_ts] for every identity. *)
Theorem activity_permutation_invariant (lines lines' : list (option Event)) :
  Permutation lines lines' ->
  read_web lines' = read_web lines
  /\ forall acts a, read_web lines = Ok acts -> In a acts ->
       exists acts', read_web lines' = Ok acts' /\ In a acts'.
Proof.
  intros Hp. pose proof (read_web_perm Hp) as E. split; [assumption|].
  intros acts a H Ha. exists acts. split; [congruence | assumption].
Qed.

Lemma page_views_coerced (e : Event) (c : Z) :
  page_views (ev_page_view_count e) = Some c -> coerced_count e c.
Proof.
  unfold page_views. intros H.
  destruct (ev_page_view_count e) as [[|s|z safe]|] eqn:E.
  - injection H as <-. now apply count_null.
  - destruct (to_numeric s) as [f|] eqn:En.
    + now apply (count_text e E En).
    + injection H as <-. now apply (count_unparseable e E).
  - injection H as <-. now apply (count_int e E).
  - injection H as <-. now apply count_missing.
Qed.

Lemma coerced_page_views (e : Event) (c : Z) :
  coerced_count e c -> page_views (ev_page_view_count e) = Some c.
Proof.
  unfold page_views.
  intros [e' E|e' E|e' s E En|e' s f c' E En Ec|e' z safe E]; rewrite E;
    try reflexivity; rewrite En; [reflexivity | assumption].
Qed.

(** C9 (amended).  Where the counts of the records stay below 2^53 in
    absolute value, the [total_page_views] of a summary row is the sum,
    wrapped to int64, of the counts of the records with its identity: 0 for
    a record whose count is missing, null or not a number, the integer
    otherwise.  It is non-negative when every such count is non-negative
    and the sum stays below 2^63. *)
Theorem total_page_views_is_sum
  (lines : list (option Event)) (acts : list Activity) (a : Activity) :
  read_web lines = Ok acts -> In a acts ->
  (forall e c, In e (web_records lines) ->
               web_identity (ev_user_uuid e) <> None ->
               coerced_count e c -> safe_int c = true) ->
  exists counts,
    Forall2 coerced_count
      (filter (fun e => key_eqb (web_identity (ev_user_uuid e)) (Some (act_uuid a)))
              (web_records lines))
      counts
    /\ total_page_views a = wrap64 (Zsum counts)
    /\ (Forall (fun z => (0 <= z)%Z) counts -> (Zsum counts < 2 ^ 63)%Z ->
        (0 <= total_page_views a)%Z).
Proof.
  intros H Ha _. destruct (@read_web_row lines acts a H Ha) as [Hall [_ [Ht _]]].
  exists (map page_views_or_0
            (filter (fun e => key_eqb (web_identity (ev_user_uuid e)) (Some (act_uuid a)))
                    (web_records lines))).
  split; [|split].
  - clear Ht. induction Hall as [|e l He _ IH]; simpl; [constructor|].
    constructor; [now apply page_views_coerced | assumption].
  - assumption.
  - intros Hnn Hlt. rewrite Ht. rewrite wrap64_small; [now apply Zsum_nonneg|].
    split; [now apply Zsum_nonneg | assumption].
Qed.

End WebFacts.

(** ** Transactions *)

Lemma select_map (A : Type) (f : A -> bool) (l : list A) :
  select (map f l) l = filter f l.
Proof.
  induction l as [|x l IH]; simpl; [reflexivity|].
  now rewrite IH.
Qed.

Lemma select_valid_mask (A : Type) (f g h : A -> bool) (l : list A) :
  select (valid_mask (map f l) (map g l) (map h l)) l
  = filter (fun x => negb (f x || g x || h x)) l.
Proof.
  induction l as [|x l IH]; simpl; [reflexivity|].
  now rewrite IH.
Qed.

Lemma log_rejections_app (reason : string) (tids : list string) :
  forall reasons,
    log_rejections reason tids reasons
    = reasons ++ map (fun tid => rejection_record tid reason) tids.
Proof.
  unfold log_rejections.
  induction tids as [|t tids IH]; intros reasons; simpl.
  - now rewrite app_nil_r.
  - rewrite IH, <- app_assoc. reflexivity.
Qed.

Section TxFacts.

Context {P : Pandas}.

Lemma tx_valid_filter (df : DataFrame) :
  tx_valid df
  = filter (fun r => is_valid_uuid (tx_user_uuid df r)
                     && amount_gt0 (tx_amount df r)
                     && negb (status_ne_completed (tx_status r)))
           (rows df).
Proof.
  unfold tx_valid, bad_uuid, non_positive, bad_status.
  rewrite select_valid_mask. apply filter_ext. intros r.
  destruct (is_valid_uuid _), (amount_gt0 _), (status_ne_completed _); reflexivity.
Qed.

Lemma tx_reasons_concat (df : DataFrame) :
  tx_reasons df
  = map (fun r => rejection_record (tid_or_missing r) "INVALID_UUID")
        (filter (fun r => negb (is_valid_uuid (tx_user_uuid df r))) (rows df))
    ++ map (fun r => rejection_record (tid_or_missing r) "NON_POSITIVE_AMOUNT")
           (filter (fun r => negb (amount_gt0 (tx_amount df r))) (rows df))
    ++ map (fun r => rejection_record (tid_or_missing r) "INVALID_STATUS")
           (filter (fun r => status_ne_completed (tx_status r)) (rows df)).
Proof.
  unfold tx_reasons, rejected_ids, bad_uuid, non_positive, bad_status.
  rewrite !log_rejections_app, !select_map, !map_map.
  simpl. now rewrite <- app_assoc.
Qed.

(** The three passes log, between them, one record for each failed check
    of each row. *)
Lemma rejections_per_row (df : DataFrame) (l : list row) :
  Permutation
    (map (fun r => rejection_record (tid_or_missing r) "INVALID_UUID")
         (filter (fun r => negb (is_valid_uuid (tx_user_uuid df r))) l)
     ++ map (fun r => rejection_record (tid_or_missing r) "NON_POSITIVE_AMOUNT")
            (filter (fun r => negb (amount_gt0 (tx_amount df r))) l)
     ++ map (fun r => rejection_record (tid_or_missing r) "INVALID_STATUS")
            (filter (fun r => status_ne_completed (tx_status r)) l))
    (flat_map (fun r => map (rejection_record (tid_or_missing r)) (failed_checks df r)) l).
Proof.
  induction l as [|r l IH]; [constructor|].
  cbn [filter flat_map]. unfold failed_checks at 1.
  destruct (is_valid_uuid (tx_user_uuid df r));
    destruct (amount_gt0 (tx_amount df r));
    destruct (status_ne_completed (tx_status r));
    cbn [negb map app];
    repeat first
      [ rewrite <- Permutation_middle
      | match goal with
        | |- Permutation (?a ++ ?b ++ ?x :: ?c) _ =>
            rewrite (app_assoc a b (x :: c)), <- Permutation_middle, <- app_assoc
        end ];
    repeat apply perm_skip; exact IH.
Qed.

Lemma read_transactions_ok (df : DataFrame) (txs : list TxSummary) (reasons : list string) :
  read_transactions df = Ok (txs, reasons) ->
  txs = map (tx_agg df) (groupby (tx_user_uuid df) (tx_valid df))
  /\ reasons = tx_reasons df.
Proof.
  unfold read_transactions.
  destruct (has_column df "status"); [|discriminate].
  destruct (has_column df "transaction_id"); [|discriminate].
  simpl. intros H. injection H as <- <-. auto.
Qed.

(** A ledger with its [status] and [transaction_id] columns is read
    without an exception. *)
Lemma read_transactions_total (df : DataFrame) :
  has_column df "status" = true -> has_column df "transaction_id" = true ->
  exists txs reasons, read_transactions df = Ok (txs, reasons).
Proof.
  intros Hs Ht. unfold read_transactions. rewrite Hs, Ht. simpl. eauto.
Qed.

(** What a summary row aggregates: the accepted rows of its identity. *)
Lemma tx_summary_row (df : DataFrame) (txs : list TxSummary) (reasons : list string)
  (t : TxSummary) :
  read_transactions df = Ok (txs, reasons) -> In t txs ->
  let accepted := filter (fun r => key_eqb (tx_user_uuid df r) (Some (tx_uuid t)))
                         (tx_valid df) in
  accepted <> []
  /\ total_spent t
     = float_sum (flat_map (fun r => match tx_amount df r with
                                     | Some x => [x]
                                     | None => []
                                     end) accepted)
  /\ transactions_count t
     = Z.of_nat (List.length (filter (fun r => is_some (cell r "transaction_id")) accepted)).
Proof.
  intros H Ht. apply read_transactions_ok in H. destruct H as [-> _].
  apply in_map_iff in Ht. destruct Ht as [[k g] [<- Hg]].
  apply groupby_In in Hg. destruct Hg as [-> Hk]. simpl.
  repeat split. apply group_keys_In in Hk. destruct Hk as [r [Hr Hkr]].
  intros Hnil.
  assert (In r (filter (fun r0 => key_eqb (tx_user_uuid df r0) (Some k)) (tx_valid df)))
    as Hin by (apply filter_In; split; [assumption | now apply key_eqb_eq]).
  rewrite Hnil in Hin. contradiction.
Qed.

Lemma read_transactions_keys_NoDup (df : DataFrame) (txs : list TxSummary)
  (reasons : list string) :
  read_transactions df = Ok (txs, reasons) -> NoDup (map tx_uuid txs).
Proof.
  intros H. apply read_transactions_ok in H. destruct H as [-> _].
  rewrite map_map.
  replace (map (fun x => tx_uuid (tx_agg df x)) (groupby (tx_user_uuid df) (tx_valid df)))
    with (map fst (groupby (tx_user_uuid df) (tx_valid df)))
    by (apply map_ext; reflexivity).
  rewrite groupby_keys. apply group_keys_NoDup.
Qed.

(** C2.  A row is among the rows kept for aggregation exactly when its
    identity has the UUID shape, its amount coerces to a number greater than
    0 and its status, lower-cased and stripped, is "completed". *)
Theorem tx_accepted_iff (df : DataFrame) (r : row) :
  In r (tx_valid df) <->
  In r (rows df)
  /\ (exists u, get df "user_uuid" r = Some u /\ uuid_shape (PyStr.strip u))
  /\ (exists s x, get df "amount" r = Some s /\ to_numeric s = Some x
                  /\ float_gt0 x = true)
  /\ (exists s, cell r "status" = Some s
                /\ PyStr.strip (PyStr.lower s) = "completed").
Proof.
  rewrite tx_valid_filter, filter_In, !andb_true_iff, negb_true_iff.
  unfold tx_user_uuid, tx_amount, tx_status, coerce_numeric.
  split.
  - intros [Hin [[Hu Ha] Hs]]. split; [assumption|]. split; [|split].
    + destruct (get df "user_uuid" r) as [u|]; [|discriminate].
      exists u. split; [reflexivity | now apply is_valid_uuid_shape].
    + destruct (get df "amount" r) as [s|]; [|discriminate].
      simpl in Ha. destruct (to_numeric s) as [x|] eqn:E; [|discriminate].
      exists s, x. auto.
    + destruct (cell r "status") as [s|]; [|discriminate].
      simpl in Hs. apply negb_false_iff, String.eqb_eq in Hs. eauto.
  - intros [Hin [[u [-> Hu]] [[s [x [-> [Hx Hp]]]] [st [-> Hs]]]]].
    split; [assumption|]. split; [split|].
    + now apply is_valid_uuid_shape.
    + simpl. now rewrite Hx.
    + simpl. rewrite Hs. reflexivity.
Qed.

(** C4.  The rejection log is the INVALID_UUID records in row order, then
    the NON_POSITIVE_AMOUNT records in row order, then the INVALID_STATUS
    records in row order, a record being the transaction id of the row
    ("<missing>" when it has none), a TAB and the reason; taken together they
    are one record for every failed check of every row. *)
Theorem rejections_grouped_by_reason
  (df : DataFrame) (txs : list TxSummary) (reasons : list string) :
  read_transactions df = Ok (txs, reasons) ->
  reasons
  = map (fun r => (match cell r "transaction_id" with
                   | Some t => t
                   | None => "<missing>"
                   end ++ String "009" "INVALID_UUID")%string)
        (filter (fun r => negb (is_valid_uuid (tx_user_uuid df r))) (rows df))
    ++ map (fun r => (match cell r "transaction_id" with
                      | Some t => t
                      | None => "<missing>"
                      end ++ String "009" "NON_POSITIVE_AMOUNT")%string)
           (filter (fun r => negb (amount_gt0 (tx_amount df r))) (rows df))
    ++ map (fun r => (match cell r "transaction_id" with
                      | Some t => t
                      | None => "<missing>"
                      end ++ String "009" "INVALID_STATUS")%string)
           (filter (fun r => status_ne_completed (tx_status r)) (rows df))
  /\ Permutation reasons
       (flat_map (fun r => map (fun reason =>
                                  (match cell r "transaction_id" with
                                   | Some t => t
                                   | None => "<missing>"
                                   end ++ String "009" reason)%string)
                               (failed_checks df r))
                 (rows df)).
Proof.
  intros H. apply read_transactions_ok in H. destruct H as [_ ->].
  rewrite tx_reasons_concat. split.
  - reflexivity.
  - exact (rejections_per_row df (rows df)).
Qed.

End TxFacts.

(** ** The merge *)

Lemma key_eqb_sym (a b : option string) : key_eqb a b = key_eqb b a.
Proof.
  destruct a, b; simpl; try reflexivity. apply String.eqb_sym.
Qed.

Lemma NoDup_map_Some (A : Type) (l : list A) : NoDup l -> NoDup (map Some l).
Proof.
  induction 1 as [|x l Hx _ IH]; simpl; constructor; [|assumption].
  intros Hin. apply in_map_iff in Hin. destruct Hin as [y [Hy Hin]].
  injection Hy as ->. contradiction.
Qed.

Section MergeFacts.

Variables L R : Type.
Variable lkey : L -> option string.
Variable rkey : R -> option string.

(** With at most one match for each left row, the join returns the left
    rows, each once and in order. *)
Lemma merge_left_fst (left : list L) (right : list R) :
  (forall l, List.length (filter (fun r => key_eqb (lkey l) (rkey r)) right) <= 1) ->
  map fst (merge_left lkey rkey left right) = left.
Proof.
  intros Hone. unfold merge_left.
  induction left as [|l left IH]; cbn [flat_map]; [reflexivity|].
  rewrite map_app, IH. specialize (Hone l).
  destruct (filter (fun r => key_eqb (lkey l) (rkey r)) right) as [|r [|r' ms]];
    simpl in *; [reflexivity | reflexivity | lia].
Qed.

Lemma merge_left_In (left : list L) (right : list R) (l : L) (o : option R) :
  In (l, o) (merge_left lkey rkey left right) ->
  In l left
  /\ match o with
     | Some r => In r right /\ lkey l = rkey r
     | None => forall r, In r right -> lkey l <> rkey r
     end.
Proof.
  unfold merge_left. intros H. apply in_flat_map in H.
  destruct H as [l0 [Hl0 H]].
  destruct (filter (fun r => key_eqb (lkey l0) (rkey r)) right) as [|m ms] eqn:F.
  - destruct H as [H | []]. injection H as -> <-. split; [assumption|].
    intros r Hr Heq.
    assert (In r (filter (fun r => key_eqb (lkey l) (rkey r)) right)) as Hin
      by (apply filter_In; split; [assumption | now apply key_eqb_eq]).
    rewrite F in Hin. contradiction.
  - rewrite <- F in H. apply in_map_iff in H. destruct H as [r [Heq Hr]].
    injection Heq as -> <-. split; [assumption|].
    apply filter_In in Hr. destruct Hr as [Hr Hk].
    apply key_eqb_eq in Hk. auto.
Qed.

Lemma unique_keys_one_match (right : list R) (k : option string) :
  NoDup (map rkey right) ->
  List.length (filter (fun r => key_eqb k (rkey r)) right) <= 1.
Proof.
  intros Hnd.
  rewrite (filter_ext _ (fun r => key_eqb (rkey r) k))
    by (intros r; apply key_eqb_sym).
  now apply NoDup_key_filter_le1.
Qed.

End MergeFacts.

Section MainFacts.

Context {P : Pandas}.

Lemma read_crm_NoDup (df : DataFrame) : NoDup (read_crm df).
Proof.
  eapply NoDup_map_inv. unfold read_crm. apply (drop_duplicates_NoDup lead_email).
Qed.

Lemma merge_all_In (crm : list Lead) (web : list Activity) (tx : list TxSummary)
  (l : Lead) (a : option Activity) (t : option TxSummary) :
  In (l, a, t) (merge_all crm web tx) ->
  In l crm
  /\ match a with
     | Some x => In x web /\ lead_uuid l = Some (act_uuid x)
     | None => forall x, In x web -> lead_uuid l <> Some (act_uuid x)
     end
  /\ match t with
     | Some x => In x tx /\ lead_uuid l = Some (tx_uuid x)
     | None => forall x, In x tx -> lead_uuid l <> Some (tx_uuid x)
     end.
Proof.
  unfold merge_all. intros H.
  apply merge_left_In in H. destruct H as [H Ht]. simpl in Ht.
  apply merge_left_In in H. destruct H as [H Ha]. auto.
Qed.

Lemma merge_all_leads (crm : list Lead) (web : list Activity) (tx : list TxSummary) :
  NoDup (map act_uuid web) -> NoDup (map tx_uuid tx) ->
  map (fun m => fst (fst m)) (merge_all crm web tx) = crm.
Proof.
  intros Hw Ht. unfold merge_all.
  rewrite <- (map_map fst fst).
  rewrite merge_left_fst, merge_left_fst; [reflexivity| |].
  - intros l. apply unique_keys_one_match.
    rewrite <- (map_map act_uuid Some). now apply NoDup_map_Some.
  - intros l. apply unique_keys_one_match.
    rewrite <- (map_map tx_uuid Some). now apply NoDup_map_Some.
Qed.

Lemma main_ok (crm_df : DataFrame) (web_lines : list (option Event))
  (tx_df : DataFrame) (out : list Customer360) (reasons : list string) :
  main crm_df web_lines tx_df = Ok (out, reasons) ->
  exists web txs,
    read_web web_lines = Ok web
    /\ read_transactions tx_df = Ok (txs, reasons)
    /\ out = map fill_defaults (merge_all (read_crm crm_df) web txs).
Proof.
  unfold main, bind. intros H.
  destruct (read_web web_lines) as [web|]; [|discriminate].
  destruct (read_transactions tx_df) as [[txs rs]|]; [|discriminate].
  simpl in H. injection H as <- <-. eauto.
Qed.

(** C3.  The merged output carries the rows of the lead table, each one
    once and in order, whatever their identity.  A row whose identity is in
    no activity summary row has [total_page_views] 0 and no [last_seen_ts];
    one whose identity is in no transaction summary row has
    [transactions_count] 0, [total_spent] 0.0 and no [last_transaction_ts];
    a row without identity has all five defaults. *)
Theorem merge_complete (crm_df : DataFrame) (web_lines : list (option Event))
  (tx_df : DataFrame) (out : list Customer360) (reasons : list string) :
  main crm_df web_lines tx_df = Ok (out, reasons) ->
  map c_lead out = read_crm crm_df
  /\ NoDup (map c_lead out)
  /\ forall c, In c out ->
       ((forall web a, read_web web_lines = Ok web -> In a web ->
                       lead_uuid (c_lead c) <> Some (act_uuid a)) ->
        c_total_page_views c = 0%Z /\ c_last_seen_ts c = None)
       /\ ((forall txs rs t, read_transactions tx_df = Ok (txs, rs) -> In t txs ->
                             lead_uuid (c_lead c) <> Some (tx_uuid t)) ->
           c_transactions_count c = 0%Z /\ c_total_spent c = float_zero
           /\ c_last_transaction_ts c = None)
       /\ (lead_uuid (c_lead c) = None ->
           c_total_page_views c = 0%Z /\ c_last_seen_ts c = None
           /\ c_transactions_count c = 0%Z /\ c_total_spent c = float_zero
           /\ c_last_transaction_ts c = None).
Proof.
  intros H. apply main_ok in H. destruct H as [web [txs [Hw [Ht ->]]]].
  assert (map c_lead (map fill_defaults (merge_all (read_crm crm_df) web txs))
          = read_crm crm_df) as Hleads.
  { rewrite map_map.
    pose proof (read_web_keys_NoDup _ Hw) as Hn1.
    pose proof (read_transactions_keys_NoDup _ Ht) as Hn2.
    rewrite <- (@merge_all_leads (read_crm crm_df) web txs Hn1 Hn2) at 2.
    apply map_ext. now intros [[l a] t]. }
  split; [assumption|]. split; [rewrite Hleads; apply read_crm_NoDup|].
  intros c Hc. apply in_map_iff in Hc. destruct Hc as [[[l a] t] [<- Hm]].
  apply merge_all_In in Hm. destruct Hm as [_ [Ha Htx]]. simpl.
  split; [|split].
  - intros Hno. destruct a as [a|]; [|auto].
    destruct Ha as [Hin Heq]. exfalso. exact (Hno web a Hw Hin Heq).
  - intros Hno. destruct t as [t|]; [|auto].
    destruct Htx as [Hin Heq]. exfalso. exact (Hno txs reasons t Ht Hin Heq).
  - intros Hnone. rewrite Hnone in Ha, Htx.
    destruct a as [a|]; [destruct Ha; discriminate|].
    destruct t as [t|]; [destruct Htx; discriminate|]. auto.
Qed.

End MainFacts.

(** ** The pipeline on the sample files *)

Example read_crm_sample :
  map lead_index (read_crm (P := Sample.pandas) Sample.crm_frame) = [1; 2; 4].
Proof. reflexivity. Qed.

Example read_web_sample :
  read_web (P := Sample.pandas) Sample.web_lines = Ok Sample.web_summary.
Proof. reflexivity. Qed.

Example read_transactions_sample :
  read_transactions (P := Sample.pandas) Sample.tx_frame
  = Ok (Sample.tx_summary, Sample.tx_log).
Proof. reflexivity. Qed.

Example main_sample :
  main (P := Sample.pandas) Sample.crm_frame Sample.web_lines Sample.tx_frame
  = Ok (Sample.merged, Sample.tx_log).
Proof. reflexivity. Qed.

(** C3, witness: the sample files. *)
Lemma merge_complete_witness :
  main (P := Sample.pandas) Sample.crm_frame Sample.web_lines Sample.tx_frame
  = Ok (Sample.merged, Sample.tx_log)
  /\ map c_lead Sample.merged = read_crm (P := Sample.pandas) Sample.crm_frame.
Proof.
  assert (main (P := Sample.pandas) Sample.crm_frame Sample.web_lines Sample.tx_frame
          = Ok (Sample.merged, Sample.tx_log)) as H by reflexivity.
  split; [exact H|].
  exact (proj1 (merge_complete (P := Sample.pandas) _ _ _ H)).
Defined.

(** C4, witness: the sample ledger. *)
Lemma rejections_grouped_by_reason_witness :
  read_transactions (P := Sample.pandas) Sample.tx_frame
  = Ok (Sample.tx_summary, Sample.tx_log)
  /\ Permutation Sample.tx_log
       (flat_map (fun r => map (fun reason =>
                                  (match cell r "transaction_id" with
                                   | Some t => t
                                   | None => "<missing>"
                                   end ++ String "009" reason)%string)
                               (failed_checks (P := Sample.pandas) Sample.tx_frame r))
                 (rows Sample.tx_frame)).
Proof.
  assert (read_transactions (P := Sample.pandas) Sample.tx_frame
          = Ok (Sample.tx_summary, Sample.tx_log)) as H by reflexivity.
  split; [exact H|].
  exact (proj2 (rejections_grouped_by_reason (P := Sample.pandas) _ H)).
Defined.

(** C5, witness: rows 1 and 0 of the sample lead file share j@x.com and
    row 1 is the later one. *)
Lemma dedup_keeps_latest_witness :
  ~ In (Sample.lead 0 (Some " 123e4567-e89b-12d3-a456-426614174000")
          (Some "j@x.com") (Some 1672531200000000000%Z))
       (read_crm (P := Sample.pandas) Sample.crm_frame).
Proof.
  refine (proj1 (dedup_keeps_latest (P := Sample.pandas) Sample.crm_frame
            (Sample.lead 1 (Some "ABCDEF01-2345-6789-abcd-ef0123456789")
               (Some "j@x.com") (Some 1672617600000000000%Z))
            (Sample.lead 0 (Some " 123e4567-e89b-12d3-a456-426614174000")
               (Some "j@x.com") (Some 1672531200000000000%Z))
            _ _ _ _)).
  - vm_compute. right. left. reflexivity.
  - vm_compute. left. reflexivity.
  - reflexivity.
  - left. exists 1672617600000000000%Z, 1672531200000000000%Z.
    repeat split.
Defined.

(** C6, counterexample: two rows without email; only one is kept. *)
Lemma missing_emails_collapse :
  map lead_email (crm_leads (P := Sample.pandas) Sample.crm_no_email) = [None; None]
  /\ map lead_index (crm_leads (P := Sample.pandas) Sample.crm_no_email) = [0; 1]
  /\ map lead_index (read_crm (P := Sample.pandas) Sample.crm_no_email) = [1].
Proof. repeat split. Qed.

(** C7.  A row that passes the three checks and has no [transaction_id]
    adds its amount to [total_spent] and nothing to [transactions_count]:
    the summary has 10 spent over 0 transactions. *)
Theorem missing_id_not_counted :
  List.length (tx_valid (P := Sample.pandas) Sample.tx_missing_id) = 1
  /\ read_transactions (P := Sample.pandas) Sample.tx_missing_id
     = Ok ([ {| tx_uuid := "123e4567-e89b-12d3-a456-426614174000";
                total_spent := 10%Z : @float64 Sample.pandas;
                transactions_count := 0;
                last_transaction_ts := None |} ], []).
Proof. split; reflexivity. Qed.

(** C8, witness: the sample log read backwards. *)
Lemma activity_permutation_invariant_witness :
  Permutation Sample.web_lines (rev Sample.web_lines)
  /\ read_web (P := Sample.pandas) (rev Sample.web_lines)
     = read_web (P := Sample.pandas) Sample.web_lines.
Proof.
  split; [apply Permutation_rev|].
  exact (proj1 (activity_permutation_invariant (P := Sample.pandas)
                  (Permutation_rev Sample.web_lines))).
Defined.

(** C9, witness: the second row of the sample summary, whose records
    have the counts "3" and "abc". *)
Lemma total_page_views_is_sum_witness :
  read_web (P := Sample.pandas) Sample.web_lines = Ok Sample.web_summary
  /\ exists counts,
       Forall2 (coerced_count (P := Sample.pandas))
         (filter (fun e => key_eqb (web_identity (ev_user_uuid e))
                                   (Some "ABCDEF01-2345-6789-abcd-ef0123456789"))
                 (web_records Sample.web_lines))
         counts
       /\ 3%Z = wrap64 (Zsum counts).
Proof.
  assert (read_web (P := Sample.pandas) Sample.web_lines = Ok Sample.web_summary)
    as H by reflexivity.
  split; [exact H|].
  destruct (@total_page_views_is_sum Sample.pandas Sample.web_lines Sample.web_summary
              {| act_uuid := "ABCDEF01-2345-6789-abcd-ef0123456789";
                 total_page_views := 3;
                 last_seen_ts := Some 1672704000000000000%Z |} H)
    as [counts [Hc [Ht _]]].
  - right. left. reflexivity.
  - intros e c Hin _ Hc. apply coerced_page_views in Hc.
    destruct Hin as [<- | [<- | [<- | []]]];
      vm_compute in Hc; injection Hc as <-; reflexivity.
  - exists counts. split; [exact Hc | exact Ht].
Defined.

(** C9, counterexample: one record with a count of -5 gives a summary row
    with [total_page_views] -5. *)
Lemma negative_page_views :
  read_web (P := Sample.pandas) Sample.web_negative
  = Ok [ {| act_uuid := "123e4567-e89b-12d3-a456-426614174000";
            total_page_views := (-5)%Z;
            last_seen_ts := Some 1672531200000000000%Z |} ]
  /\ ~ (0 <= -5)%Z.
Proof. split; [reflexivity | lia]. Qed.

(** C10, witness: rows 2 and 3 of the sample lead file have no email;
    row 2 has a timestamp, row 3 has not, and row 2 is kept. *)
Lemma dedup_prefers_parsed_timestamp_witness :
  exists k, In k (read_crm (P := Sample.pandas) Sample.crm_frame)
    /\ lead_email k = None /\ lead_ts k <> None.
Proof.
  destruct (dedup_prefers_parsed_timestamp (P := Sample.pandas) Sample.crm_frame
              (Sample.lead 3 None None None))
    as [k [Hk [He [_ [Hts _]]]]].
  - vm_compute. do 3 right. left. reflexivity.
  - exists k. split; [exact Hk|]. split; [exact He|].
    apply Hts. exists (Sample.lead 2 None None (Some 1672617600000000000%Z)).
    split; [|split; [reflexivity | discriminate]].
    vm_compute. do 2 right. left. reflexivity.
Defined.

(** * Further properties of the code *)

(** ** Strings *)

Lemma is_space_lower (c : ascii) :
  PyStr.is_space (PyStr.lower_char c) = PyStr.is_space c.
Proof. destruct c as [[] [] [] [] [] [] [] []]; reflexivity. Qed.

Lemma lower_char_idem (c : ascii) :
  PyStr.lower_char (PyStr.lower_char c) = PyStr.lower_char c.
Proof. destruct c as [[] [] [] [] [] [] [] []]; reflexivity. Qed.

Lemma lower_idem (s : string) : PyStr.lower (PyStr.lower s) = PyStr.lower s.
Proof.
  induction s as [|c s IH]; simpl; [reflexivity|].
  now rewrite lower_char_idem, IH.
Qed.

Lemma lstrip_lower (s : string) :
  PyStr.lstrip (PyStr.lower s) = PyStr.lower (PyStr.lstrip s).
Proof.
  induction s as [|c s IH]; simpl; [reflexivity|].
  rewrite is_space_lower. destruct (PyStr.is_space c); [assumption | reflexivity].
Qed.

Lemma rstrip_lower (s : string) :
  PyStr.rstrip (PyStr.lower s) = PyStr.lower (PyStr.rstrip s).
Proof.
  induction s as [|c s IH]; simpl; [reflexivity|].
  rewrite IH, is_space_lower.
  destruct (PyStr.rstrip s); simpl; [|reflexivity].
  destruct (PyStr.is_space c); reflexivity.
Qed.

Lemma strip_lower (s : string) :
  PyStr.strip (PyStr.lower s) = PyStr.lower (PyStr.strip s).
Proof. unfold PyStr.strip. now rewrite lstrip_lower, rstrip_lower. Qed.

Lemma rstrip_idem (s : string) : PyStr.rstrip (PyStr.rstrip s) = PyStr.rstrip s.
Proof.
  induction s as [|c s IH]; simpl; [reflexivity|].
  destruct (PyStr.rstrip s) as [|e t] eqn:E.
  - destruct (PyStr.is_space c) eqn:Hc; simpl; [reflexivity|].
    now rewrite Hc.
  - cbn [PyStr.rstrip]. cbn [PyStr.rstrip] in IH. now rewrite IH.
Qed.

Lemma lstrip_head (s : string) : head_not_space (PyStr.lstrip s).
Proof.
  induction s as [|c s IH]; simpl; [exact I|].
  destruct (PyStr.is_space c) eqn:E; [assumption | exact E].
Qed.

Lemma lstrip_fixed (s : string) : head_not_space s -> PyStr.lstrip s = s.
Proof.
  destruct s as [|c s]; simpl; [reflexivity|]. now intros ->.
Qed.

Lemma rstrip_head (s : string) : head_not_space s -> head_not_space (PyStr.rstrip s).
Proof.
  destruct s as [|c s]; simpl; [trivial|]. intros Hc.
  destruct (PyStr.rstrip s); [rewrite Hc|]; exact Hc.
Qed.

Lemma strip_idem (s : string) : PyStr.strip (PyStr.strip s) = PyStr.strip s.
Proof.
  unfold PyStr.strip.
  rewrite (lstrip_fixed _ (rstrip_head _ (lstrip_head s))).
  apply rstrip_idem.
Qed.

Lemma lstrip_spaces (p s : string) :
  all_space p -> PyStr.lstrip (p ++ s)%string = PyStr.lstrip s.
Proof.
  unfold all_space. induction p as [|c p IH]; simpl; intros H; [reflexivity|].
  inversion H as [|? ? Hc Hp]; subst. rewrite Hc. now apply IH.
Qed.

Lemma rstrip_spaces (q : string) : all_space q -> PyStr.rstrip q = EmptyString.
Proof.
  unfold all_space. induction q as [|c q IH]; simpl; intros H; [reflexivity|].
  inversion H as [|? ? Hc Hq]; subst. rewrite (IH Hq). now rewrite Hc.
Qed.

Lemma rstrip_app_spaces (s q : string) :
  all_space q -> PyStr.rstrip (s ++ q)%string = PyStr.rstrip s.
Proof.
  intros Hq. induction s as [|c s IH]; simpl.
  - now apply rstrip_spaces.
  - now rewrite IH.
Qed.

Lemma strip_padding (p s q : string) :
  all_space p -> all_space q ->
  PyStr.strip (p ++ s ++ q)%string = PyStr.strip s.
Proof.
  intros Hp Hq. unfold PyStr.strip. rewrite (lstrip_spaces _ Hp).
  induction s as [|c s IH]; simpl.
  - destruct q as [|d q]; [reflexivity|].
    unfold all_space in Hq. simpl in Hq. inversion Hq as [|? ? Hd Hq']; subst.
    simpl. rewrite Hd.
    rewrite <- (string_app_nil_r q) at 1.
    rewrite (lstrip_spaces EmptyString Hq'). reflexivity.
  - destruct (PyStr.is_space c); [assumption|].
    change (String c (s ++ q)%string) with (String c s ++ q)%string.
    now apply rstrip_app_spaces.
Qed.

Lemma take_class_lower (cls : list (ascii * ascii)) :
  (forall d, Re.in_class cls (PyStr.lower_char d) = Re.in_class cls d) ->
  forall n s,
    Re.take_class cls n (PyStr.lower s)
    = option_map PyStr.lower (Re.take_class cls n s).
Proof.
  intros Hcls. induction n as [|n IH]; intros s; cbn [Re.take_class].
  - reflexivity.
  - destruct s as [|c s]; cbn [PyStr.lower]; [reflexivity|].
    rewrite Hcls. destruct (Re.in_class cls c); [apply IH | reflexivity].
Qed.

Lemma at_end_lower (s : string) : Re.at_end (PyStr.lower s) = Re.at_end s.
Proof.
  destruct s as [|c [|d s]]; try reflexivity.
  simpl. destruct c as [[] [] [] [] [] [] [] []]; reflexivity.
Qed.

Lemma match_atoms_lower (p : list Re.atom) :
  Forall caseless p ->
  forall start s,
    Re.match_atoms p start (PyStr.lower s) = Re.match_atoms p start s.
Proof.
  induction 1 as [|a p Ha _ IH]; intros start s; [reflexivity|].
  destruct a as [| |c|cls n]; cbn [Re.match_atoms].
  - now rewrite IH.
  - now rewrite at_end_lower, IH.
  - destruct s as [|d s]; cbn [PyStr.lower]; [reflexivity|].
    simpl in Ha. now rewrite Ha, IH.
  - simpl in Ha. rewrite (take_class_lower _ Ha).
    destruct (Re.take_class cls n s); simpl; [apply IH | reflexivity].
Qed.

Lemma UUID_RE_caseless : Forall caseless UUID_RE.
Proof.
  unfold UUID_RE.
  repeat constructor; simpl; intros d;
    destruct d as [[] [] [] [] [] [] [] []]; reflexivity.
Qed.

(** X1.  [clean_email] is idempotent: a cleaned email is stripped and in
    lower case already, and a missing email stays missing. *)
Theorem clean_email_idempotent (x : option string) :
  clean_email (clean_email x) = clean_email x
  /\ (clean_email x = None <-> x = None).
Proof.
  split.
  - destruct x as [s|]; simpl; [|reflexivity].
    now rewrite strip_lower, strip_idem, lower_idem.
  - destruct x; simpl; split; congruence.
Qed.

(** X2.  White space around a value does not change whether
    [is_valid_uuid] accepts it. *)
Theorem is_valid_uuid_padding (p s q : string) :
  all_space p -> all_space q ->
  is_valid_uuid (Some (p ++ s ++ q)%string) = is_valid_uuid (Some s).
Proof.
  intros Hp Hq. unfold is_valid_uuid. now rewrite strip_padding.
Qed.

Lemma is_valid_uuid_padding_witness :
  is_valid_uuid (Some (" " ++ "123e4567-e89b-12d3-a456-426614174000"
                       ++ String "009" (String "010" ""))%string)
  = is_valid_uuid (Some "123e4567-e89b-12d3-a456-426614174000").
Proof.
  apply is_valid_uuid_padding; repeat constructor.
Defined.

(** X3.  [is_valid_uuid] does not depend on letter case: a value and its
    lower-cased form are accepted or rejected together. *)
Theorem is_valid_uuid_caseless (s : string) :
  is_valid_uuid (Some (PyStr.lower s)) = is_valid_uuid (Some s).
Proof.
  unfold is_valid_uuid, Re.re_match.
  rewrite strip_lower. apply match_atoms_lower, UUID_RE_caseless.
Qed.

(** ** More on the lead table *)

Lemma drop_seen_sorted (A : Type) (key : A -> option string) (R : A -> A -> Prop)
  (l : list A) : forall seen,
  StronglySorted R l -> StronglySorted R (drop_seen key seen l).
Proof.
  induction l as [|x l IH]; intros seen Hs; simpl; [constructor|].
  inversion Hs as [|? ? Hs' Hall]; subst.
  destruct (existsb (key_eqb (key x)) seen); [now apply IH|].
  constructor; [now apply IH|].
  rewrite Forall_forall in *. intros y Hy. apply Hall.
  apply drop_seen_In in Hy. destruct Hy as [l1 [l2 [-> _]]].
  apply in_or_app. right. now left.
Qed.

Lemma stable_sort_fixed (A : Type) (before : A -> A -> bool) (l : list A) :
  StronglySorted (fun a b => before a b = true) l -> stable_sort before l = l.
Proof.
  induction 1 as [|x l Hs IH Hall]; simpl; [reflexivity|].
  rewrite IH. destruct l as [|y l]; [reflexivity|].
  simpl. inversion Hall as [|? ? Hxy _]; subst. now rewrite Hxy.
Qed.

Lemma seq_sorted (n : nat) : forall a, StronglySorted le (seq a n).
Proof.
  induction n as [|n IH]; intros a; simpl; constructor; [apply IH|].
  apply Forall_forall. intros x Hx. apply in_seq in Hx. lia.
Qed.

Lemma sorted_by_index (l : list Lead) :
  (forall x, In x l -> lead_ts x = None) ->
  StronglySorted le (map lead_index l) ->
  StronglySorted (fun a b => lead_before a b = true) l.
Proof.
  induction l as [|x l IH]; simpl; intros Hts Hs; [constructor|].
  inversion Hs as [|? ? Hs' Hall]; subst.
  constructor; [apply IH; auto|].
  rewrite Forall_forall in *. intros y Hy. unfold lead_before.
  rewrite (Hts x (or_introl eq_refl)), (Hts y (or_intror Hy)).
  apply Nat.leb_le. apply Hall. now apply in_map.
Qed.

Section CrmMore.

Context {P : Pandas}.

Lemma crm_leads_emails (df : DataFrame) :
  map lead_email (crm_leads df)
  = map (fun r => clean_email (get df "email" r)) (rows df).
Proof.
  unfold crm_leads. rewrite map_map. simpl.
  rewrite <- (map_snd_combine_seq (rows df) 0) at 3.
  now rewrite map_map.
Qed.

(** X4.  The lead table has one row for each cleaned email of the lead
    file, a missing email counting as one email: no email occurs twice and
    none is lost. *)
Theorem lead_emails_unique (df : DataFrame) :
  NoDup (map lead_email (read_crm df))
  /\ forall e, In e (map lead_email (read_crm df)) <->
               exists r, In r (rows df) /\ clean_email (get df "email" r) = e.
Proof.
  split; [apply (drop_duplicates_NoDup lead_email)|].
  intros e.
  assert (In e (map lead_email (read_crm df))
          <-> In e (map lead_email (crm_leads df))) as ->.
  { rewrite !in_map_iff. split.
    - intros [k [He Hk]]. exists k. split; [assumption | now apply read_crm_incl].
    - intros [r [He Hr]]. destruct (read_crm_keeps df r Hr) as [k [Hk Hek]].
      exists k. split; [congruence | assumption]. }
  rewrite crm_leads_emails, in_map_iff.
  split; intros [r [H1 H2]]; exists r; auto.
Qed.

(** X5.  The lead table is in the order of the sort: every row is before
    all the rows after it (later timestamp first, rows without a timestamp
    last, ties in file order). *)
Theorem lead_table_sorted (df : DataFrame) :
  StronglySorted (fun a b => lead_before a b = true) (read_crm df).
Proof.
  unfold read_crm, drop_duplicates. apply drop_seen_sorted.
  apply stable_sort_sorted; [apply lead_before_total | apply lead_before_trans].
Qed.

(** X6.  When the lead file has none of the timestamp columns, no lead has
    a timestamp and the sort changes nothing: the lead table is the first
    row of each email, in file order. *)
Theorem no_timestamp_keeps_first (df : DataFrame) :
  first_present CRM_TS_COLUMNS df = None ->
  read_crm df = drop_duplicates lead_email (crm_leads df)
  /\ forall l, In l (read_crm df) -> lead_ts l = None.
Proof.
  intros Hcol.
  assert (forall l, In l (crm_leads df) -> lead_ts l = None) as Hts.
  { intros l Hl. unfold crm_leads in Hl. rewrite Hcol in Hl.
    apply in_map_iff in Hl. destruct Hl as [ir [<- _]]. reflexivity. }
  split.
  - unfold read_crm. rewrite stable_sort_fixed; [reflexivity|].
    apply sorted_by_index; [assumption|].
    rewrite crm_leads_index. apply seq_sorted.
  - intros l Hl. apply Hts. now apply read_crm_incl.
Qed.

End CrmMore.

Lemma no_timestamp_keeps_first_witness :
  first_present CRM_TS_COLUMNS Sample2.crm_no_ts = None
  /\ map lead_index (read_crm (P := Sample.pandas) Sample2.crm_no_ts) = [0; 1].
Proof.
  split; [reflexivity|].
  rewrite (proj1 (no_timestamp_keeps_first (P := Sample.pandas)
                    Sample2.crm_no_ts eq_refl)).
  reflexivity.
Defined.

(** ** More on the activity summary *)

Lemma map_opt_None_iff (A B : Type) (f : A -> option B) (l : list A) :
  map_opt f l = None <-> exists x, In x l /\ f x = None.
Proof.
  induction l as [|a l IH]; simpl.
  - split; [discriminate | intros [x [[] _]]].
  - destruct (f a) as [b|] eqn:E.
    + destruct (map_opt f l) as [r|]; simpl.
      * split; [discriminate|]. intros [x [[<- | Hx] Hf]]; [congruence|].
        assert (@Some (list B) r = None) by (apply (proj2 IH); eauto).
        discriminate.
      * split; [|reflexivity]. intros _.
        destruct (proj1 IH eq_refl) as [x [Hx Hf]]. eauto.
    + split; [|reflexivity]. intros _. exists a. auto.
Qed.

Lemma group_keys_map (A B : Type) (f : A -> B) (key : B -> option string)
  (l : list A) :
  group_keys key (map f l) = group_keys (fun x => key (f x)) l.
Proof.
  unfold group_keys. do 2 f_equal.
  induction l as [|x l IH]; simpl; [reflexivity | now rewrite IH].
Qed.

Lemma group_keys_filter (A : Type) (key : A -> option string) (l : list A) :
  group_keys key (filter (fun x => is_some (key x)) l) = group_keys key l.
Proof.
  unfold group_keys. do 2 f_equal.
  induction l as [|x l IH]; simpl; [reflexivity|].
  destruct (key x) as [k|] eqn:E; simpl; rewrite ?E; simpl; now rewrite IH.
Qed.

Lemma Zsum_app (l1 l2 : list Z) : Zsum (l1 ++ l2) = (Zsum l1 + Zsum l2)%Z.
Proof.
  unfold Zsum. rewrite fold_left_app, Zsum_acc. reflexivity.
Qed.

Lemma wrap64_add (x y : Z) : wrap64 (x + y) = wrap64 (wrap64 x + wrap64 y).
Proof.
  unfold wrap64. f_equal.
  replace (x + y + 2 ^ 63)%Z with ((x + 2 ^ 63) + (y + 2 ^ 63) - 2 ^ 63)%Z by lia.
  replace ((x + 2 ^ 63) mod 2 ^ 64 - 2 ^ 63 + ((y + 2 ^ 63) mod 2 ^ 64 - 2 ^ 63)
           + 2 ^ 63)%Z
    with ((x + 2 ^ 63) mod 2 ^ 64 + (y + 2 ^ 63) mod 2 ^ 64 - 2 ^ 63)%Z by lia.
  rewrite (Zminus_mod ((x + 2 ^ 63) + (y + 2 ^ 63))).
  rewrite (Zminus_mod ((x + 2 ^ 63) mod 2 ^ 64 + (y + 2 ^ 63) mod 2 ^ 64)).
  rewrite (Zplus_mod (x + 2 ^ 63) (y + 2 ^ 63)).
  rewrite (Zplus_mod ((x + 2 ^ 63) mod 2 ^ 64) ((y + 2 ^ 63) mod 2 ^ 64)).
  now rewrite !Zmod_mod.
Qed.

Lemma ts_max2_assoc (a b c : option Z) :
  ts_max2 (ts_max2 a b) c = ts_max2 a (ts_max2 b c).
Proof.
  destruct a, b, c; simpl; try reflexivity. f_equal. lia.
Qed.

Lemma ts_max_acc (l : list (option Z)) : forall a,
  fold_left ts_max2 l a = ts_max2 a (ts_max l).
Proof.
  unfold ts_max. induction l as [|x l IH]; intros a; simpl.
  - now destruct a.
  - rewrite IH, (IH x). apply ts_max2_assoc.
Qed.

Lemma ts_max_app (l1 l2 : list (option Z)) :
  ts_max (l1 ++ l2) = ts_max2 (ts_max l1) (ts_max l2).
Proof.
  unfold ts_max at 1. rewrite fold_left_app. apply ts_max_acc.
Qed.

(** The maximum is above every timestamp of the column and is one of them. *)
Lemma ts_max_spec (l : list (option Z)) :
  (forall t, In (Some t) l -> exists m, ts_max l = Some m /\ (t <= m)%Z)
  /\ (forall m, ts_max l = Some m -> In (Some m) l).
Proof.
  induction l as [|x l [IH1 IH2]].
  - split; [intros t [] | discriminate].
  - change (x :: l) with ([x] ++ l). rewrite ts_max_app.
    change (ts_max [x]) with x. split.
    + intros t [-> | Ht].
      * simpl. destruct (ts_max l) as [v|]; eexists; split; eauto; lia.
      * destruct (IH1 t Ht) as [m [-> Hm]].
        destruct x as [v|]; simpl; eexists; split; eauto; lia.
    + intros m Hm. destruct x as [v|]; simpl in Hm.
      * destruct (ts_max l) as [w|] eqn:E.
        -- injection Hm as <-. destruct (Z.max_spec v w) as [[_ ->] | [_ ->]].
           ++ right. now apply IH2.
           ++ now left.
        -- injection Hm as <-. now left.
      * right. now apply IH2.
Qed.

Section WebMore.

Context {P : Pandas}.

Lemma web_records_app (l1 l2 : list (option Event)) :
  web_records (l1 ++ l2) = web_records l1 ++ web_records l2.
Proof. unfold web_records. apply flat_map_app. Qed.

Lemma read_web_keys (lines : list (option Event)) (acts : list Activity) :
  read_web lines = Ok acts ->
  map act_uuid acts
  = group_keys (fun e => web_identity (ev_user_uuid e)) (web_records lines).
Proof.
  unfold read_web. intros H.
  destruct (web_records lines) as [|e t] eqn:E; [injection H as <-; reflexivity|].
  rewrite <- E in *. clear E. unfold web_frame in H.
  destruct (existsb (fun e => is_some (ev_page_view_count e)) (web_records lines));
    [|discriminate]. simpl in H.
  destruct (map_opt web_counts _) as [df1|] eqn:Hm; [|discriminate].
  destruct (existsb (fun e => is_some (ev_last_seen_ts e)) (web_records lines));
    [|discriminate]. simpl in H. injection H as <-.
  apply map_opt_web_counts in Hm. destruct Hm as [-> _].
  rewrite map_map.
  replace (map (fun x => act_uuid (web_agg x)) (groupby w_uuid _))
    with (map fst (groupby w_uuid
                     (map web_row
                        (map (fun e => (e, page_views_or_0 e))
                           (filter (fun e => is_some (web_identity (ev_user_uuid e)))
                              (web_records lines))))))
    by (apply map_ext; reflexivity).
  rewrite groupby_keys, !group_keys_map. simpl.
  apply (group_keys_filter (fun e => web_identity (ev_user_uuid e))).
Qed.

(** X9.  The identities of the activity summary are the valid identities
    of the log's records, each once, in ascending order; each has the UUID
    shape once stripped. *)
Theorem activity_identities (lines : list (option Event)) (acts : list Activity) :
  read_web lines = Ok acts ->
  NoDup (map act_uuid acts)
  /\ StronglySorted (fun a b => String.leb a b = true) (map act_uuid acts)
  /\ (forall u, In u (map act_uuid acts) <->
                exists e, In e (web_records lines)
                          /\ web_identity (ev_user_uuid e) = Some u)
  /\ (forall u, In u (map act_uuid acts) -> uuid_shape (PyStr.strip u)).
Proof.
  intros H. rewrite (read_web_keys _ H).
  split; [apply group_keys_NoDup|]. split; [apply group_keys_sorted|].
  split; [intros u; apply group_keys_In|].
  intros u Hu. apply group_keys_In in Hu. destruct Hu as [e [_ He]].
  unfold web_identity in He. destruct (ev_user_uuid e) as [[|s|z Hz]|]; try discriminate.
  apply validate_identity_some in He. destruct He as [He Hs].
  injection He as <-. assumption.
Qed.

(** X10.  [last_seen_ts] of a summary row is the latest timestamp of the
    records with its identity: it is at or after each of them and is the
    timestamp of one of them; it is missing only when all of them are. *)
Theorem last_seen_is_latest
  (lines : list (option Event)) (acts : list Activity) (a : Activity) :
  read_web lines = Ok acts -> In a acts ->
  (forall e t, In e (web_records lines) ->
               web_identity (ev_user_uuid e) = Some (act_uuid a) ->
               web_timestamp (ev_last_seen_ts e) = Some t ->
               exists m, last_seen_ts a = Some m /\ (t <= m)%Z)
  /\ (forall m, last_seen_ts a = Some m ->
                exists e, In e (web_records lines)
                          /\ web_identity (ev_user_uuid e) = Some (act_uuid a)
                          /\ web_timestamp (ev_last_seen_ts e) = Some m).
Proof.
  intros H Ha. destruct (@read_web_row P lines acts a H Ha) as [_ [_ [_ Hl]]].
  rewrite Hl.
  destruct (ts_max_spec
              (map (fun e => web_timestamp (ev_last_seen_ts e))
                 (filter (fun e => key_eqb (web_identity (ev_user_uuid e))
                                           (Some (act_uuid a)))
                    (web_records lines)))) as [Hup Hin].
  split.
  - intros e t He Hid Ht. apply Hup. rewrite <- Ht.
    apply (in_map (fun e => web_timestamp (ev_last_seen_ts e))).
    apply filter_In. split; [assumption | now apply key_eqb_eq].
  - intros m Hm. apply Hin in Hm. apply in_map_iff in Hm.
    destruct Hm as [e [Ht He]]. apply filter_In in He. destruct He as [He Hid].
    apply key_eqb_eq in Hid. eauto.
Qed.

(** X11.  Reading two logs one after the other as one log adds up their
    summaries, where the counts of the records stay below 2^53 in absolute
    value: for an identity in both, [total_page_views] is the int64 sum of
    the two totals and [last_seen_ts] the later of the two. *)
Theorem read_web_concat
  (l1 l2 : list (option Event)) (acts1 acts2 acts : list Activity)
  (a1 a2 a : Activity) :
  read_web l1 = Ok acts1 -> read_web l2 = Ok acts2 ->
  read_web (l1 ++ l2) = Ok acts ->
  In a1 acts1 -> In a2 acts2 -> In a acts ->
  act_uuid a1 = act_uuid a -> act_uuid a2 = act_uuid a ->
  (forall e c, In e (web_records (l1 ++ l2)) ->
               web_identity (ev_user_uuid e) <> None ->
               coerced_count e c -> safe_int c = true) ->
  total_page_views a = wrap64 (total_page_views a1 + total_page_views a2)
  /\ last_seen_ts a = ts_max2 (last_seen_ts a1) (last_seen_ts a2).
Proof.
  intros H1 H2 H Ha1 Ha2 Ha E1 E2 _.
  destruct (@read_web_row P l1 acts1 a1 H1 Ha1) as [_ [_ [Ht1 Hl1]]].
  destruct (@read_web_row P l2 acts2 a2 H2 Ha2) as [_ [_ [Ht2 Hl2]]].
  destruct (@read_web_row P (l1 ++ l2) acts a H Ha) as [_ [_ [Ht Hl]]].
  rewrite E1 in Ht1, Hl1. rewrite E2 in Ht2, Hl2.
  rewrite web_records_app, filter_app in Ht, Hl.
  rewrite map_app in Ht, Hl.
  rewrite Zsum_app, wrap64_add, <- Ht1, <- Ht2 in Ht.
  rewrite ts_max_app, <- Hl1, <- Hl2 in Hl.
  auto.
Qed.

End WebMore.

Lemma activity_identities_witness :
  read_web (P := Sample.pandas) Sample.web_lines = Ok Sample.web_summary
  /\ NoDup (map act_uuid Sample.web_summary).
Proof.
  assert (read_web (P := Sample.pandas) Sample.web_lines = Ok Sample.web_summary)
    as H by reflexivity.
  split; [exact H|].
  exact (proj1 (activity_identities (P := Sample.pandas) _ H)).
Defined.

Lemma last_seen_is_latest_witness :
  read_web (P := Sample.pandas) Sample.web_lines = Ok Sample.web_summary
  /\ forall m,
       Some 1672704000000000000%Z = Some m ->
       exists e, In e (web_records Sample.web_lines)
                 /\ web_identity (ev_user_uuid e)
                    = Some "ABCDEF01-2345-6789-abcd-ef0123456789"
                 /\ web_timestamp (P := Sample.pandas) (ev_last_seen_ts e) = Some m.
Proof.
  assert (read_web (P := Sample.pandas) Sample.web_lines = Ok Sample.web_summary)
    as H by reflexivity.
  split; [exact H|].
  refine (proj2 (@last_seen_is_latest Sample.pandas Sample.web_lines Sample.web_summary
                   (Sample2.activity "ABCDEF01-2345-6789-abcd-ef0123456789" 3
                      (Some 1672704000000000000%Z)) H _)).
  right. left. reflexivity.
Defined.

Lemma read_web_concat_witness :
  let u := "ABCDEF01-2345-6789-abcd-ef0123456789" in
  let a1 := Sample2.activity u 3 (Some 1672531200000000000%Z) in
  let a2 := Sample2.activity u 4 (Some 1672704000000000000%Z) in
  let a := Sample2.activity u 7 (Some 1672704000000000000%Z) in
  read_web (P := Sample.pandas) Sample2.web_part1 = Ok [a1]
  /\ read_web (P := Sample.pandas) Sample2.web_part2 = Ok [a2]
  /\ read_web (P := Sample.pandas) (Sample2.web_part1 ++ Sample2.web_part2) = Ok [a]
  /\ total_page_views a = wrap64 (total_page_views a1 + total_page_views a2)
  /\ last_seen_ts a = ts_max2 (last_seen_ts a1) (last_seen_ts a2).
Proof.
  intros u a1 a2 a.
  assert (read_web (P := Sample.pandas) Sample2.web_part1 = Ok [a1]) as H1
    by reflexivity.
  assert (read_web (P := Sample.pandas) Sample2.web_part2 = Ok [a2]) as H2
    by reflexivity.
  assert (read_web (P := Sample.pandas) (Sample2.web_part1 ++ Sample2.web_part2)
          = Ok [a]) as H by reflexivity.
  split; [exact H1|]. split; [exact H2|]. split; [exact H|].
  apply (@read_web_concat Sample.pandas Sample2.web_part1 Sample2.web_part2
           [a1] [a2] [a] a1 a2 a H1 H2 H); try reflexivity; try (left; reflexivity).
  intros e c Hin _ Hc. apply coerced_page_views in Hc.
  destruct Hin as [<- | [<- | []]];
    vm_compute in Hc; injection Hc as <-; reflexivity.
Defined.

(** ** More on the transactions *)

Lemma filter_nil_iff (A : Type) (f : A -> bool) (l : list A) :
  filter f l = [] <-> forall x, In x l -> f x = false.
Proof.
  induction l as [|a l IH]; simpl; [tauto|].
  destruct (f a) eqn:E.
  - split; [discriminate|]. intros H. specialize (H a (or_introl eq_refl)). congruence.
  - rewrite IH. split.
    + intros H x [<- | Hx]; auto.
    + intros H x Hx. apply H. now right.
Qed.

Lemma filter_length_bound (A : Type) (f : A -> bool) (l : list A) :
  List.length (filter f l) <= List.length l.
Proof.
  induction l as [|a l IH]; simpl; [lia|].
  destruct (f a); simpl; lia.
Qed.

Lemma filter_all_iff (A : Type) (f : A -> bool) (l : list A) :
  filter f l = l <-> forall x, In x l -> f x = true.
Proof.
  induction l as [|a l IH]; simpl; [tauto|].
  destruct (f a) eqn:E.
  - split.
    + intros H x [<- | Hx]; [assumption|]. injection H as H. now apply IH.
    + intros H. f_equal. apply IH. intros x Hx. apply H. now right.
  - split.
    + intros H. pose proof (filter_length_bound f l) as Hl.
      rewrite H in Hl. simpl in Hl. lia.
    + intros H. specialize (H a (or_introl eq_refl)). congruence.
Qed.

Section TxMore.

Context {P : Pandas}.

Lemma read_transactions_keys (df : DataFrame) (txs : list TxSummary)
  (reasons : list string) :
  read_transactions df = Ok (txs, reasons) ->
  map tx_uuid txs = group_keys (tx_user_uuid df) (tx_valid df).
Proof.
  intros H. apply read_transactions_ok in H. destruct H as [-> _].
  rewrite map_map.
  replace (map (fun x => tx_uuid (tx_agg df x)) (groupby (tx_user_uuid df) (tx_valid df)))
    with (map fst (groupby (tx_user_uuid df) (tx_valid df)))
    by (apply map_ext; reflexivity).
  apply groupby_keys.
Qed.

Lemma tx_summary_last (df : DataFrame) (txs : list TxSummary) (reasons : list string)
  (t : TxSummary) :
  read_transactions df = Ok (txs, reasons) -> In t txs ->
  last_transaction_ts t
  = match first_present TX_TS_COLUMNS df with
    | Some c =>
        ts_max (map (fun r => to_iso_timestamp (cell r c))
                  (filter (fun r => key_eqb (tx_user_uuid df r) (Some (tx_uuid t)))
                     (tx_valid df)))
    | None => None
    end.
Proof.
  intros H Ht. apply read_transactions_ok in H. destruct H as [-> _].
  apply in_map_iff in Ht. destruct Ht as [[k g] [<- Hg]].
  apply groupby_In in Hg. destruct Hg as [-> _]. reflexivity.
Qed.

(** X12.  The rejection log is empty exactly when every row of the ledger
    is kept for aggregation. *)
Theorem empty_log_iff_all_accepted
  (df : DataFrame) (txs : list TxSummary) (reasons : list string) :
  read_transactions df = Ok (txs, reasons) ->
  (reasons = [] <-> tx_valid df = rows df).
Proof.
  intros H. apply read_transactions_ok in H. destruct H as [_ ->].
  rewrite tx_reasons_concat, tx_valid_filter, filter_all_iff.
  split.
  - intros Hnil. apply app_eq_nil in Hnil. destruct Hnil as [H1 Hnil].
    apply app_eq_nil in Hnil. destruct Hnil as [H2 H3].
    apply map_eq_nil in H1, H2, H3.
    rewrite filter_nil_iff in H1, H2, H3.
    intros r Hr. specialize (H1 r Hr). specialize (H2 r Hr). specialize (H3 r Hr).
    apply negb_false_iff in H1, H2. now rewrite H1, H2, H3.
  - intros Hall.
    assert (forall (f : row -> bool),
               (forall r, In r (rows df) -> f r = false) ->
               forall reason,
                 map (fun r => rejection_record (tid_or_missing r) reason)
                     (filter f (rows df)) = []) as Hmap.
    { intros f Hf reason. now rewrite (proj2 (filter_nil_iff f (rows df)) Hf). }
    rewrite !Hmap; [reflexivity | | |]; intros r Hr; specialize (Hall r Hr);
      apply andb_true_iff in Hall; destruct Hall as [Hall H3];
      apply andb_true_iff in Hall; destruct Hall as [H1 H2].
    + now apply negb_true_iff in H3.
    + now rewrite H2.
    + now rewrite H1.
Qed.

(** X13.  [transactions_count] never exceeds the number of accepted rows
    of the identity; when each of these rows has a [transaction_id] it is
    that number, which is at least 1. *)
Theorem transactions_count_with_ids
  (df : DataFrame) (txs : list TxSummary) (reasons : list string) (t : TxSummary) :
  read_transactions df = Ok (txs, reasons) -> In t txs ->
  let accepted := filter (fun r => key_eqb (tx_user_uuid df r) (Some (tx_uuid t)))
                         (tx_valid df) in
  (0 <= transactions_count t <= Z.of_nat (List.length accepted))%Z
  /\ ((forall r, In r accepted -> cell r "transaction_id" <> None) ->
      transactions_count t = Z.of_nat (List.length accepted)
      /\ (1 <= transactions_count t)%Z).
Proof.
  intros H Ht accepted.
  destruct (@tx_summary_row P df txs reasons t H Ht) as [Hne [_ Hc]].
  fold accepted in Hne, Hc. rewrite Hc. split.
  - pose proof (filter_length_bound
                  (fun r => is_some (cell r "transaction_id")) accepted). lia.
  - intros Hids.
    rewrite (proj2 (filter_all_iff (fun r => is_some (cell r "transaction_id")) accepted)).
    + split; [reflexivity|]. destruct accepted; [contradiction | simpl; lia].
    + intros r Hr. specialize (Hids r Hr).
      destruct (cell r "transaction_id"); [reflexivity | contradiction].
Qed.

(** X14.  The identities of the transaction summary are the identities of
    the accepted rows, each once, in ascending order; each has the UUID
    shape once stripped. *)
Theorem transaction_identities
  (df : DataFrame) (txs : list TxSummary) (reasons : list string) :
  read_transactions df = Ok (txs, reasons) ->
  NoDup (map tx_uuid txs)
  /\ StronglySorted (fun a b => String.leb a b = true) (map tx_uuid txs)
  /\ (forall u, In u (map tx_uuid txs) <->
                exists r, In r (tx_valid df) /\ get df "user_uuid" r = Some u)
  /\ (forall u, In u (map tx_uuid txs) -> uuid_shape (PyStr.strip u)).
Proof.
  intros H. rewrite (read_transactions_keys _ H).
  split; [apply group_keys_NoDup|]. split; [apply group_keys_sorted|].
  split; [intros u; apply group_keys_In|].
  intros u Hu. apply group_keys_In in Hu. destruct Hu as [r [Hr Hk]].
  rewrite tx_valid_filter in Hr. apply filter_In in Hr. destruct Hr as [_ Hr].
  apply andb_true_iff in Hr. destruct Hr as [Hr _].
  apply andb_true_iff in Hr. destruct Hr as [Hr _].
  rewrite Hk in Hr. now apply is_valid_uuid_shape.
Qed.

(** X15.  Without a [timestamp], [created_at] or [tx_ts] column every
    summary row has no [last_transaction_ts]; with one, it is the latest
    timestamp, in the first such column, of the accepted rows of the
    identity: at or after each and equal to one of them. *)
Theorem last_transaction_is_latest
  (df : DataFrame) (txs : list TxSummary) (reasons : list string) (t : TxSummary) :
  read_transactions df = Ok (txs, reasons) -> In t txs ->
  (first_present TX_TS_COLUMNS df = None -> last_transaction_ts t = None)
  /\ forall c, first_present TX_TS_COLUMNS df = Some c ->
       (forall r v, In r (tx_valid df) -> get df "user_uuid" r = Some (tx_uuid t) ->
                    to_iso_timestamp (cell r c) = Some v ->
                    exists m, last_transaction_ts t = Some m /\ (v <= m)%Z)
       /\ (forall m, last_transaction_ts t = Some m ->
                     exists r, In r (tx_valid df)
                               /\ get df "user_uuid" r = Some (tx_uuid t)
                               /\ to_iso_timestamp (cell r c) = Some m).
Proof.
  intros H Ht. rewrite (@tx_summary_last df txs reasons t H Ht).
  split; [now intros ->|]. intros c ->.
  destruct (ts_max_spec
              (map (fun r => to_iso_timestamp (cell r c))
                 (filter (fun r => key_eqb (tx_user_uuid df r) (Some (tx_uuid t)))
                    (tx_valid df)))) as [Hup Hin].
  split.
  - intros r v Hr Hu Hv. apply Hup. rewrite <- Hv.
    apply (in_map (fun r => to_iso_timestamp (cell r c))).
    apply filter_In. split; [assumption | now apply key_eqb_eq].
  - intros m Hm. apply Hin in Hm. apply in_map_iff in Hm.
    destruct Hm as [r [Hv Hr]]. apply filter_In in Hr. destruct Hr as [Hr Hu].
    apply key_eqb_eq in Hu. eauto.
Qed.

End TxMore.

Lemma empty_log_iff_all_accepted_witness :
  read_transactions (P := Sample.pandas) Sample2.tx_with_ids
  = Ok (Sample2.tx_with_ids_summary, [])
  /\ tx_valid (P := Sample.pandas) Sample2.tx_with_ids = rows Sample2.tx_with_ids.
Proof.
  assert (read_transactions (P := Sample.pandas) Sample2.tx_with_ids
          = Ok (Sample2.tx_with_ids_summary, [])) as H by reflexivity.
  split; [exact H|].
  exact (proj1 (empty_log_iff_all_accepted (P := Sample.pandas) _ H) eq_refl).
Defined.

Lemma transactions_count_with_ids_witness :
  read_transactions (P := Sample.pandas) Sample2.tx_with_ids
  = Ok (Sample2.tx_with_ids_summary, [])
  /\ (0 <= 2)%Z.
Proof.
  assert (read_transactions (P := Sample.pandas) Sample2.tx_with_ids
          = Ok (Sample2.tx_with_ids_summary, [])) as H by reflexivity.
  split; [exact H|].
  refine (proj1 (proj1 (@transactions_count_with_ids Sample.pandas
            Sample2.tx_with_ids Sample2.tx_with_ids_summary []
            {| tx_uuid := "123e4567-e89b-12d3-a456-426614174000";
               total_spent := 15%Z : @float64 Sample.pandas;
               transactions_count := 2;
               last_transaction_ts := None |} H _))).
  left. reflexivity.
Defined.

Lemma transaction_identities_witness :
  read_transactions (P := Sample.pandas) Sample.tx_frame
  = Ok (Sample.tx_summary, Sample.tx_log)
  /\ NoDup (map tx_uuid Sample.tx_summary).
Proof.
  assert (read_transactions (P := Sample.pandas) Sample.tx_frame
          = Ok (Sample.tx_summary, Sample.tx_log)) as H by reflexivity.
  split; [exact H|].
  exact (proj1 (transaction_identities (P := Sample.pandas) _ H)).
Defined.

Lemma last_transaction_is_latest_witness :
  let t := {| tx_uuid := "123e4567-e89b-12d3-a456-426614174000";
              total_spent := 10%Z : @float64 Sample.pandas;
              transactions_count := 1;
              last_transaction_ts := Some 1672617600000000000%Z |} in
  read_transactions (P := Sample.pandas) Sample.tx_frame
  = Ok (Sample.tx_summary, Sample.tx_log)
  /\ first_present TX_TS_COLUMNS Sample.tx_frame = Some "timestamp"
  /\ (forall r v,
        In r (tx_valid (P := Sample.pandas) Sample.tx_frame) ->
        get Sample.tx_frame "user_uuid" r = Some (tx_uuid t) ->
        to_iso_timestamp (P := Sample.pandas) (cell r "timestamp") = Some v ->
        exists m, last_transaction_ts t = Some m /\ (v <= m)%Z)
  /\ (forall m,
        last_transaction_ts t = Some m ->
        exists r, In r (tx_valid (P := Sample.pandas) Sample.tx_frame)
                  /\ get Sample.tx_frame "user_uuid" r = Some (tx_uuid t)
                  /\ to_iso_timestamp (P := Sample.pandas) (cell r "timestamp")
                     = Some m).
Proof.
  intros t.
  assert (read_transactions (P := Sample.pandas) Sample.tx_frame
          = Ok (Sample.tx_summary, Sample.tx_log)) as H by reflexivity.
  split; [exact H|]. split; [reflexivity|].
  refine (proj2 (@last_transaction_is_latest Sample.pandas Sample.tx_frame
                   Sample.tx_summary Sample.tx_log t H _) "timestamp" eq_refl).
  left. reflexivity.
Defined.

(** ** The rejection log file *)

Lemma write_lines_fold (reasons : list string) : forall f,
  fold_left (fun f r => f_write f (r ++ String "010" "")%string) reasons f
  = (f ++ fold_right (fun r acc => r ++ String "010" acc) EmptyString reasons)%string.
Proof.
  unfold f_write. induction reasons as [|r reasons IH]; intros f; simpl.
  - now rewrite string_app_nil_r.
  - rewrite IH, !string_app_assoc. reflexivity.
Qed.

Lemma split_newline_line (a rest : string) :
  no_newline a ->
  split_newline (a ++ String "010" rest) = a :: split_newline rest.
Proof.
  unfold no_newline. induction a as [|c a IH]; intros H.
  - reflexivity.
  - cbn [list_ascii_of_string] in H. inversion H as [|? ? Hc Ha]; subst.
    cbn [String.append split_newline].
    apply N.eqb_neq in Hc. rewrite Hc, (IH Ha). reflexivity.
Qed.

Lemma split_newline_lines (reasons : list string) :
  Forall no_newline reasons ->
  split_newline (fold_right (fun r acc => r ++ String "010" acc) EmptyString reasons)%string
  = reasons ++ [EmptyString].
Proof.
  induction 1 as [|r reasons Hr _ IH]; [reflexivity|].
  cbn [fold_right app]. now rewrite (split_newline_line _ Hr), IH.
Qed.

(** X16.  The rejection log can be read back line by line: when no record
    contains a line feed, splitting the file at line feeds gives the header,
    then the records in order, then the empty piece after the last line
    feed. *)
Theorem reject_log_round_trip (reasons : list string) :
  Forall no_newline reasons ->
  split_newline (write_reject_log reasons)
  = ("transaction_id" ++ String "009" "rejection_reason")%string
    :: reasons ++ [EmptyString].
Proof.
  intros H. unfold write_reject_log. rewrite write_lines_fold.
  unfold f_write.
  change (split_newline
            (("transaction_id" ++ String "009" "rejection_reason")
             ++ String "010"
                  (fold_right (fun r acc => r ++ String "010" acc) EmptyString reasons))%string
          = ("transaction_id" ++ String "009" "rejection_reason")%string
            :: reasons ++ [EmptyString]).
  rewrite split_newline_line.
  - now rewrite split_newline_lines.
  - unfold no_newline. cbn. repeat constructor; discriminate.
Qed.

Lemma reject_log_round_trip_witness :
  split_newline (write_reject_log Sample.tx_log)
  = ("transaction_id" ++ String "009" "rejection_reason")%string
    :: Sample.tx_log ++ [EmptyString].
Proof.
  apply reject_log_round_trip.
  unfold Sample.tx_log, no_newline. cbn. repeat constructor; discriminate.
Defined.

(** ** More on the merge *)

Section MainMore.

Context {P : Pandas}.

Lemma main_leads (crm_df : DataFrame) (web_lines : list (option Event))
  (tx_df : DataFrame) (out : list Customer360) (reasons : list string) :
  main crm_df web_lines tx_df = Ok (out, reasons) ->
  map c_lead out = read_crm crm_df.
Proof.
  intros H. apply main_ok in H. destruct H as [web [txs [Hw [Ht ->]]]].
  rewrite map_map.
  pose proof (read_web_keys_NoDup _ Hw) as Hn1.
  pose proof (read_transactions_keys_NoDup _ Ht) as Hn2.
  rewrite <- (@merge_all_leads P (read_crm crm_df) web txs Hn1 Hn2) at 2.
  apply map_ext. now intros [[l a] t].
Qed.

(** X17.  A lead whose identity is the identity of a summary row gets that
    row's values in the merged output: page views and last seen from the
    activity row, amount spent, count and last transaction from the
    transaction row.  The identities must be the same text. *)
Theorem merge_carries_summaries (crm_df : DataFrame) (web_lines : list (option Event))
  (tx_df : DataFrame) (out : list Customer360) (reasons : list string)
  (c : Customer360) :
  main crm_df web_lines tx_df = Ok (out, reasons) -> In c out ->
  (forall web a, read_web web_lines = Ok web -> In a web ->
                 lead_uuid (c_lead c) = Some (act_uuid a) ->
                 c_total_page_views c = total_page_views a
                 /\ c_last_seen_ts c = last_seen_ts a)
  /\ (forall txs rs t, read_transactions tx_df = Ok (txs, rs) -> In t txs ->
                       lead_uuid (c_lead c) = Some (tx_uuid t) ->
                       c_total_spent c = total_spent t
                       /\ c_transactions_count c = transactions_count t
                       /\ c_last_transaction_ts c = last_transaction_ts t).
Proof.
  intros H Hc. apply main_ok in H. destruct H as [web [txs [Hw [Ht ->]]]].
  apply in_map_iff in Hc. destruct Hc as [[[l oa] ot] [<- Hm]].
  apply merge_all_In in Hm. destruct Hm as [_ [Ha Htx]]. simpl. split.
  - intros web' a Hw' Hin Heq. rewrite Hw in Hw'. injection Hw' as <-.
    destruct oa as [x|].
    + destruct Ha as [Hx Hk].
      assert (x = a) as ->; [|auto].
      apply (NoDup_map_inj act_uuid web); auto.
      * now apply (read_web_keys_NoDup web_lines).
      * congruence.
    + exfalso. exact (Ha a Hin Heq).
  - intros txs' rs t Ht' Hin Heq. rewrite Ht in Ht'. injection Ht' as <- <-.
    destruct ot as [x|].
    + destruct Htx as [Hx Hk].
      assert (x = t) as ->; [|auto].
      apply (NoDup_map_inj tx_uuid txs); auto.
      * now apply (read_transactions_keys_NoDup tx_df (reasons := reasons)).
      * congruence.
    + exfalso. exact (Htx t Hin Heq).
Qed.

(** X18.  An activity log that has no record (empty, or only blank and
    unparseable lines) gives the empty summary, and every row that [main]
    then returns has 0 page views and no last seen. *)
Theorem main_without_activity (crm_df : DataFrame) (web_lines : list (option Event))
  (tx_df : DataFrame) (out : list Customer360) (reasons : list string) :
  web_records web_lines = [] ->
  main crm_df web_lines tx_df = Ok (out, reasons) ->
  read_web web_lines = Ok []
  /\ forall c, In c out -> c_total_page_views c = 0%Z /\ c_last_seen_ts c = None.
Proof.
  intros Hrec Hm.
  assert (read_web web_lines = Ok []) as Hw by (unfold read_web; now rewrite Hrec).
  split; [assumption|].
  apply main_ok in Hm. destruct Hm as [web [txs [Hw' [_ ->]]]].
  rewrite Hw in Hw'. injection Hw' as <-.
  intros c Hc. apply in_map_iff in Hc. destruct Hc as [[[l oa] ot] [<- Hin]].
  apply merge_all_In in Hin. destruct Hin as [_ [Ha _]].
  destruct oa as [x|]; [destruct Ha as [[] _] | auto].
Qed.

End MainMore.

Lemma merge_carries_summaries_witness :
  main (P := Sample.pandas) Sample.crm_frame Sample.web_lines Sample.tx_frame
  = Ok (Sample.merged, Sample.tx_log)
  /\ c_total_page_views (P := Sample.pandas)
       {| c_lead := Sample.lead 1 (Some "ABCDEF01-2345-6789-abcd-ef0123456789")
                      (Some "j@x.com") (Some 1672617600000000000%Z);
          c_total_page_views := 3;
          c_last_seen_ts := Some 1672704000000000000%Z;
          c_total_spent := 0%Z : @float64 Sample.pandas;
          c_transactions_count := 0;
          c_last_transaction_ts := None |}
     = 3%Z.
Proof.
  assert (main (P := Sample.pandas) Sample.crm_frame Sample.web_lines Sample.tx_frame
          = Ok (Sample.merged, Sample.tx_log)) as H by reflexivity.
  split; [exact H|].
  refine (proj1 (proj1 (@merge_carries_summaries Sample.pandas _ _ _ _ _
                          {| c_lead := Sample.lead 1
                                         (Some "ABCDEF01-2345-6789-abcd-ef0123456789")
                                         (Some "j@x.com")
                                         (Some 1672617600000000000%Z);
                             c_total_page_views := 3;
                             c_last_seen_ts := Some 1672704000000000000%Z;
                             c_total_spent := 0%Z : @float64 Sample.pandas;
                             c_transactions_count := 0;
                             c_last_transaction_ts := None |} H _)
                   Sample.web_summary
                   (Sample2.activity "ABCDEF01-2345-6789-abcd-ef0123456789" 3
                      (Some 1672704000000000000%Z)) eq_refl _ eq_refl)).
  - left. reflexivity.
  - right. left. reflexivity.
Defined.

Lemma main_without_activity_witness :
  main (P := Sample.pandas) Sample.crm_frame [None; None] Sample.tx_frame
  = Ok (Sample2.merged_no_activity, Sample.tx_log)
  /\ read_web (P := Sample.pandas) [None; None] = Ok []
  /\ forall c, In c Sample2.merged_no_activity ->
                c_total_page_views c = 0%Z /\ c_last_seen_ts c = None.
Proof.
  assert (main (P := Sample.pandas) Sample.crm_frame [None; None] Sample.tx_frame
          = Ok (Sample2.merged_no_activity, Sample.tx_log)) as H by reflexivity.
  split; [exact H|].
  exact (@main_without_activity Sample.pandas Sample.crm_frame [None; None]
           Sample.tx_frame Sample2.merged_no_activity Sample.tx_log eq_refl H).
Defined.
